(** * The Singapore AI Dietician dashboard client: a shallow embedding

    The repository is one Streamlit script, [app.py].  This development
    embeds the parts of it that carry a contract: the menu-text
    normalizers, the typed-menu parser, the HTTP helper functions, the
    job-polling loop and the control skeleton of [main].

    Python strings are sequences of Unicode code points, so a text is a
    list of code points here.  Requests, user-interface messages and
    sleeps are recorded in a trace carried by a small state-and-exception
    monad; the backend is an arbitrary oracle answering each request. *)

From stdpp Require Import base option list numbers gmap.
From Stdlib Require Import Ascii.
From Stdlib Require String SpecFloat.
Import String.StringSyntax.
Delimit Scope string_scope with string.

Open Scope N_scope.
Open Scope list_scope.

(** ** Texts *)

Module Text.

Definition char := N.
Definition text := list char.

Definition LF : char := 10.

(** The code points of a UTF-8 byte sequence. *)
Fixpoint utf8_decode (bs : list N) : text :=
  match bs with
  | [] => []
  | b0 :: rest =>
      if b0 <? 192 then b0 :: utf8_decode rest
      else if b0 <? 224 then
        match rest with
        | b1 :: rest' => ((b0 - 192) * 64 + (b1 - 128)) :: utf8_decode rest'
        | [] => [b0]
        end
      else if b0 <? 240 then
        match rest with
        | b1 :: b2 :: rest' =>
            ((b0 - 224) * 4096 + (b1 - 128) * 64 + (b2 - 128)) :: utf8_decode rest'
        | _ => [b0]
        end
      else
        match rest with
        | b1 :: b2 :: b3 :: rest' =>
            ((b0 - 240) * 262144 + (b1 - 128) * 4096 + (b2 - 128) * 64 + (b3 - 128))
              :: utf8_decode rest'
        | _ => [b0]
        end
  end.

(** The escape [\n] of a Python literal stands for a line feed. *)
Fixpoint unescape (s : text) : text :=
  match s with
  | 92 :: 110 :: s' => LF :: unescape s'
  | c :: s' => c :: unescape s'
  | [] => []
  end.

(** A Python string literal, written here as it is in the source. *)
Definition py (s : String.string) : text :=
  unescape (utf8_decode (map (fun a => N_of_ascii a) (String.list_ascii_of_string s))).
Arguments py s%_string.

(** The character tables of Python's Unicode database.  They are not
    part of the repository; the functions below take them as a
    parameter.  [isspace] is the table behind [str.strip] and the
    regular-expression class [\s], [isdecimal] the one behind [\d],
    [isnumeric] the per-character test of [str.isnumeric], and [lower]
    is [str.lower]. *)
Record Unicode := {
  isspace : char -> bool;
  isdecimal : char -> bool;
  isnumeric_char : char -> bool;
  lower : text -> text
}.

(** The tables restricted to ASCII, where they agree with Python's. *)
Definition ascii_isspace (c : char) : bool :=
  ((9 <=? c) && (c <=? 13)) || ((28 <=? c) && (c <=? 32)).
Definition ascii_isdigit (c : char) : bool := (48 <=? c) && (c <=? 57).
Definition ascii_lower_char (c : char) : char :=
  if (65 <=? c) && (c <=? 90) then c + 32 else c.

Definition ascii_tables : Unicode := {|
  isspace := ascii_isspace;
  isdecimal := ascii_isdigit;
  isnumeric_char := ascii_isdigit;
  lower := map ascii_lower_char
|}.

Section StrMethods.
Context (U : Unicode).

(** [s.startswith(p)] *)
Fixpoint startswith (p s : text) : bool :=
  match p, s with
  | [], _ => true
  | a :: p', b :: s' => (a =? b) && startswith p' s'
  | _ :: _, [] => false
  end.

(** [p in s] for strings *)
Fixpoint contains (p s : text) : bool :=
  startswith p s ||
  match s with
  | [] => false
  | _ :: s' => contains p s'
  end.

(** [s.split(sep)] for a separator of one character *)
Fixpoint split (sep : char) (s : text) : list text :=
  match s with
  | [] => [[]]
  | c :: s' =>
      if c =? sep then [] :: split sep s'
      else match split sep s' with
           | w :: ws => (c :: w) :: ws
           | [] => [[c]]
           end
  end.

(** [s.replace(a, b)] for strings [a], [b] of one character each *)
Definition replace (a b : char) (s : text) : text :=
  map (fun c => if c =? a then b else c) s.

Fixpoint lstrip (s : text) : text :=
  match s with
  | c :: s' => if isspace U c then lstrip s' else s
  | [] => []
  end.

Definition rstrip (s : text) : text := rev (lstrip (rev s)).

(** [s.strip()] *)
Definition strip (s : text) : text := rstrip (lstrip s).

(** [s.isnumeric()]: every character numeric, and at least one *)
Definition isnumeric (s : text) : bool :=
  match s with
  | [] => false
  | _ => forallb (isnumeric_char U) s
  end.

(** [sep.join(items)] *)
Fixpoint join (sep : text) (items : list text) : text :=
  match items with
  | [] => []
  | [x] => x
  | x :: rest => x ++ sep ++ join sep rest
  end.

(** Truth value of a string *)
Definition nonempty (s : text) : bool :=
  match s with [] => false | _ => true end.

End StrMethods.

End Text.
Export Text.

(** ** The regular expressions of the normalizers

    The six patterns handed to [re.sub] are built from single-character
    classes, the greedy repetitions [*] and [+] of such a class, and the
    end anchor [$].  The matcher below is the backtracking one of
    Python's [re]: a repetition first takes as many characters as it can
    and gives them back one at a time while the rest of the pattern
    fails. *)

Module Re.

Inductive charclass :=
| Lit (c : char)     (* an escaped or plain literal, or a one-element set such as [|] *)
| Digit              (* \d *)
| Space              (* \s *)
| Dot.               (* .  : anything but a line feed *)

Inductive atom :=
| One (cc : charclass)
| Star (cc : charclass)
| Plus (cc : charclass)
| Eos.               (* $ : at the end, or before a final line feed *)

Definition regex := list atom.

Section Matcher.
Context (U : Unicode).

Definition cc_match (cc : charclass) (c : char) : bool :=
  match cc with
  | Lit a => c =? a
  | Digit => isdecimal U c
  | Space => isspace U c
  | Dot => negb (c =? LF)
  end.

Definition at_end (s : text) : bool :=
  match s with
  | [] => true
  | [c] => c =? LF
  | _ => false
  end.

(** Greedy repetition of a class followed by the continuation [k];
    the result is the length of the text matched. *)
Fixpoint star_match (cc : charclass) (k : text -> option nat) (s : text)
  : option nat :=
  match s with
  | c :: s' =>
      if cc_match cc c then
        match star_match cc k s' with
        | Some n => Some (S n)
        | None => k s
        end
      else k s
  | [] => k s
  end.

(** [re_match re s]: the length of the match of [re] at the start of
    [s], if there is one. *)
Fixpoint re_match (re : regex) (s : text) : option nat :=
  match re with
  | [] => Some O
  | One cc :: re' =>
      match s with
      | c :: s' => if cc_match cc c then S <$> re_match re' s' else None
      | [] => None
      end
  | Star cc :: re' => star_match cc (re_match re') s
  | Plus cc :: re' =>
      match s with
      | c :: s' =>
          if cc_match cc c then S <$> star_match cc (re_match re') s' else None
      | [] => None
      end
  | Eos :: re' => if at_end s then re_match re' s else None
  end.

(** [re.sub(re, "", s)]: scan left to right; where a match starts its
    characters are dropped ([skip] counts those still to drop) and the
    scan resumes behind it; elsewhere the character is kept.  An empty
    match replaces nothing by nothing. *)
Fixpoint sub_scan (re : regex) (skip : nat) (s : text) : text :=
  match s with
  | [] => []
  | c :: s' =>
      match skip with
      | S k => sub_scan re k s'
      | O =>
          match re_match re s with
          | Some (S k) => sub_scan re k s'
          | _ => c :: sub_scan re O s'
          end
      end
  end.

Definition sub_empty (re : regex) (s : text) : text := sub_scan re O s.

End Matcher.

(** r"\d+\.\d+" *)
Definition PRICE : regex := [Plus Digit; One (Lit 46); Plus Digit].
(** r"/\d+\.\d+" *)
Definition SLASH_PRICE : regex := [One (Lit 47); Plus Digit; One (Lit 46); Plus Digit].
(** r"\+\s*\d+" *)
Definition PLUS_NUMBER : regex := [One (Lit 43); Star Space; Plus Digit].
(** r"[|].*" *)
Definition AFTER_BAR : regex := [One (Lit 124); Star Dot].
(** r"\d+\.\d+.*$" *)
Definition PRICE_TO_END : regex :=
  [Plus Digit; One (Lit 46); Plus Digit; Star Dot; Eos].
(** r"/.*$" *)
Definition SLASH_TO_END : regex := [One (Lit 47); Star Dot; Eos].

End Re.

(** ** The menu-text normalizers *)

Module Normalizer.
Import Re.

(** The headings both normalizers refuse. *)
Definition NOISE_HEADINGS : list text :=
  [py "LUNCH SPECIALS"; py "BURGERS/MAINS"; py "MON-THU"; py "TILL4PM"].

(** [list(dict.fromkeys(items))]: the items in order of first
    occurrence, later repetitions dropped. *)
Fixpoint fromkeys_from (seen : list text) (items : list text) : list text :=
  match items with
  | [] => []
  | x :: rest =>
      if bool_decide (x ∈ seen) then fromkeys_from seen rest
      else x :: fromkeys_from (x :: seen) rest
  end.

Definition dict_fromkeys (items : list text) : list text := fromkeys_from [] items.

Section Rules.
Context (U : Unicode).

(** Lines 298-325: the loop body of the AI-assisted variant; [None]
    when the line is skipped. *)
Definition ai_rule (line : text) : option text :=
  let line := strip U line in
  if nonempty line
     && negb (startswith (py "{") line)
     && negb (startswith (py "·") line)
     && negb (startswith (py "?") line)
     && (3 <? length line)%nat
     && negb (isnumeric U line)
     && negb (contains (py "img_path") line)
  then
    let cleaned := sub_empty U PRICE line in
    let cleaned := sub_empty U SLASH_PRICE cleaned in
    let cleaned := sub_empty U PLUS_NUMBER cleaned in
    let cleaned := sub_empty U AFTER_BAR cleaned in
    let cleaned := strip U cleaned in
    if (5 <? length cleaned)%nat
       && negb (bool_decide (cleaned ∈ NOISE_HEADINGS))
       && negb (startswith (py "·") cleaned)
    then Some cleaned
    else None
  else None.

(** Lines 295-329: what [extract_menu_items_from_content] computes
    from [content] once the backend has answered 200. *)
Definition extract_items (content : text) : list text :=
  let lines := split LF content in
  let menu_items := omap ai_rule lines in
  take 15 (dict_fromkeys menu_items).

(** Lines 347-374: the loop body of the simple variant. *)
Definition simple_rule (line : text) : option text :=
  let line := strip U line in
  if nonempty line
     && negb (startswith (py "{") line)
     && negb (startswith (py "·") line)
     && negb (startswith (py "?") line)
     && (5 <? length line)%nat
     && negb (isnumeric U line)
     && negb (contains (py "img_path") line)
     && negb (contains (py "type") line)
  then
    let cleaned := sub_empty U PRICE_TO_END line in
    let cleaned := sub_empty U SLASH_TO_END cleaned in
    let cleaned := strip U cleaned in
    if (3 <? length cleaned)%nat
       && negb (bool_decide (cleaned ∈ NOISE_HEADINGS))
    then Some cleaned
    else None
  else None.

Definition parse_menu_items_simple (content : text) : list text :=
  let lines := split LF content in
  let menu_items := omap simple_rule lines in
  take 12 (dict_fromkeys menu_items).

(** Lines 939-943 of [main]: the typed-menu parser. *)
Definition parse_typed_menu (menu_items_input : text) : list text :=
  filter (fun item => nonempty item = true)
         (map (strip U) (split 44 (replace LF 44 menu_items_input))).

(** Lines 847-849 of [main]: the comma-separated custom additions. *)
Definition parse_custom_additions (custom_additions : text) : list text :=
  filter (fun item => nonempty item = true)
         (map (strip U) (split 44 custom_additions)).

(** Lines 693-698 and 764-769 of [main]: keep the first item of every
    group of items equal up to letter case. *)
Fixpoint unique_options_from (seen : list text) (items : list text) : list text :=
  match items with
  | [] => []
  | item :: rest =>
      if bool_decide (lower U item ∈ seen) then unique_options_from seen rest
      else item :: unique_options_from (lower U item :: seen) rest
  end.

Definition unique_options (items : list text) : list text :=
  unique_options_from [] items.

End Rules.

End Normalizer.
Export Normalizer.


(** ** Python values

    What [response.json()] hands back, and what the script stores in the
    session: [None], booleans, integers, floats, strings, lists and
    dictionaries keyed by strings.  A dictionary keeps its entries in
    the order they were inserted, which is the order it is iterated in;
    it is a list of entries with pairwise distinct keys. *)

Module Py.

#[local] Set Warnings "-register-all".

Inductive value :=
| VNone
| VBool (b : bool)
| VInt (z : Z)
| VFloat (f : SpecFloat.spec_float)
| VStr (s : text)
| VList (l : list value)
| VDict (d : list (text * value)).

(** Exceptions.  [requests] raises the first group; the second group
    comes from operations on values; the last two are how Streamlit
    ends or restarts a script run, and they derive from
    [BaseException], not from [Exception]. *)
Inductive net_error :=
| ReadTimeout | ConnectTimeout | ConnectionError | OtherRequestError.

Inductive exn :=
| RequestsError (k : net_error)
| JSONDecodeError
| KeyError (key : text)
| TypeError
| AttributeError
| StopException
| RerunException.

(** [isinstance(e, requests.exceptions.Timeout)] *)
Definition is_Timeout (e : exn) : bool :=
  match e with
  | RequestsError ReadTimeout | RequestsError ConnectTimeout => true
  | _ => false
  end.

(** [isinstance(e, requests.exceptions.ConnectionError)] *)
Definition is_ConnectionError (e : exn) : bool :=
  match e with
  | RequestsError ConnectionError | RequestsError ConnectTimeout => true
  | _ => false
  end.

(** [isinstance(e, Exception)] *)
Definition is_Exception (e : exn) : bool :=
  match e with
  | StopException | RerunException => false
  | _ => true
  end.

(** Truth value, as [if v:] and [not v] take it. *)
Definition truthy (v : value) : bool :=
  match v with
  | VNone => false
  | VBool b => b
  | VInt z => negb (z =? 0)%Z
  | VFloat (SpecFloat.S754_zero _) => false
  | VFloat _ => true
  | VStr s => nonempty s
  | VList l => match l with [] => false | _ => true end
  | VDict d => match d with [] => false | _ => true end
  end.

(** The entry of a dictionary under a key *)
Fixpoint dict_lookup (d : list (text * value)) (key : text) : option value :=
  match d with
  | [] => None
  | (k, v) :: d' => if bool_decide (k = key) then Some v else dict_lookup d' key
  end.

(** [v == s] for a string literal [s] *)
Definition eq_str (v : value) (s : text) : bool :=
  match v with
  | VStr t => bool_decide (t = s)
  | _ => false
  end.

(** [v.get(key, default)]: only dictionaries have the method. *)
Definition get (v : value) (key : text) (dflt : value) : exn + value :=
  match v with
  | VDict d => inr (default dflt (dict_lookup d key))
  | _ => inl AttributeError
  end.

(** [v[key]] with a string key *)
Definition getitem (v : value) (key : text) : exn + value :=
  match v with
  | VDict d =>
      match dict_lookup d key with
      | Some x => inr x
      | None => inl (KeyError key)
      end
  | _ => inl TypeError
  end.

(** [len(v)] *)
Definition len (v : value) : exn + nat :=
  match v with
  | VStr s => inr (length s)
  | VList l => inr (length l)
  | VDict d => inr (length d)
  | _ => inl TypeError
  end.

(** [a or b] *)
Definition or_value (a b : value) : value := if truthy a then a else b.

(** The items a [for] loop over [v] visits, for the values [len] accepts. *)
Definition iter (v : value) : exn + list value :=
  match v with
  | VStr s => inr ((fun c => VStr [c]) <$> s)
  | VList l => inr l
  | VDict d => inr ((fun kv => VStr kv.1) <$> d)
  | _ => inl TypeError
  end.

(** The strings of a list, or the exception [e] when an item is no string. *)
Fixpoint strings_or (e : exn) (l : list value) : exn + list text :=
  match l with
  | [] => inr []
  | VStr s :: l' =>
      match strings_or e l' with
      | inr ss => inr (s :: ss)
      | inl x => inl x
      end
  | _ :: _ => inl e
  end.

(** [sep.join(items)]: a [TypeError] unless every item is a string. *)
Definition join_values (sep : text) (items : list value) : exn + text :=
  match strings_or TypeError items with
  | inr ss => inr (join sep ss)
  | inl e => inl e
  end.

End Py.
Export Py.

(** ** The world of the script: backend, session, trace *)

Module IO.

(** An f-string: literal pieces and formatted values, left to right.
    Values are kept as they are, not rendered. *)
Inductive frag :=
| FLit (s : text)
| FText (s : text)       (* a string variable *)
| FVal (v : value)       (* any other Python value *)
| FNat (n : nat)         (* a count *)
| FExn (e : exn).        (* an exception, or [str(e)] *)

Definition fstring := list frag.

Inductive verb := GET | POST.

(** A call of [requests.get] or [requests.post]: the path behind
    [BACKEND_URL], and the keyword arguments. *)
Record request := {
  req_verb : verb;
  req_path : fstring;
  req_params : list (text * fstring);
  req_json : option value;
  req_headers : list (text * text);
  req_timeout : option nat
}.

Record response := {
  status_code : Z;
  resp_text : text;            (* [response.text] *)
  resp_json : option value     (* the body decoded; [None]: it is no JSON *)
}.

Inductive http_outcome :=
| Responds (r : response)
| Fails (k : net_error).

Inductive st_kind := st_error | st_warning | st_info | st_success.

Inductive event :=
| Http (r : request)
| St (k : st_kind) (msg : fstring)
| Sleep (seconds : nat)
| FileWrite (path : text)
| FileRemove (path : text).

(** [st.session_state], with the keys lines 70-87 initialise and the
    per-file keys [processed_<name>_<size>] of line 634. *)
Record session_state := {
  selected_menu_items : list value;
  processing_job_id : value;
  extracted_menu_options : list text;
  document_processed : bool;
  extracted_items_persistent : value;
  doc_processed_persistent : bool;
  api_key : text;
  api_key_valid : bool;
  processed_files : gset (text * N)
}.

Definition initial_session : session_state := {|
  selected_menu_items := [];
  processing_job_id := VNone;
  extracted_menu_options := [];
  document_processed := false;
  extracted_items_persistent := VList [];
  doc_processed_persistent := false;
  api_key := [];
  api_key_valid := false;
  processed_files := ∅
|}.

Definition set_api_key (key : text) (s : session_state) : session_state :=
  {| selected_menu_items := selected_menu_items s;
     processing_job_id := processing_job_id s;
     extracted_menu_options := extracted_menu_options s;
     document_processed := document_processed s;
     extracted_items_persistent := extracted_items_persistent s;
     doc_processed_persistent := doc_processed_persistent s;
     api_key := key;
     api_key_valid := api_key_valid s;
     processed_files := processed_files s |}.

Definition set_api_key_valid (b : bool) (s : session_state) : session_state :=
  {| selected_menu_items := selected_menu_items s;
     processing_job_id := processing_job_id s;
     extracted_menu_options := extracted_menu_options s;
     document_processed := document_processed s;
     extracted_items_persistent := extracted_items_persistent s;
     doc_processed_persistent := doc_processed_persistent s;
     api_key := api_key s;
     api_key_valid := b;
     processed_files := processed_files s |}.

Definition set_selected_menu_items (items : list value) (s : session_state)
  : session_state :=
  {| selected_menu_items := items;
     processing_job_id := processing_job_id s;
     extracted_menu_options := extracted_menu_options s;
     document_processed := document_processed s;
     extracted_items_persistent := extracted_items_persistent s;
     doc_processed_persistent := doc_processed_persistent s;
     api_key := api_key s;
     api_key_valid := api_key_valid s;
     processed_files := processed_files s |}.

Definition set_extracted_menu_options (options : list text) (s : session_state)
  : session_state :=
  {| selected_menu_items := selected_menu_items s;
     processing_job_id := processing_job_id s;
     extracted_menu_options := options;
     document_processed := true;
     extracted_items_persistent := extracted_items_persistent s;
     doc_processed_persistent := doc_processed_persistent s;
     api_key := api_key s;
     api_key_valid := api_key_valid s;
     processed_files := processed_files s |}.

Definition set_extracted_items_persistent (items : value) (s : session_state)
  : session_state :=
  {| selected_menu_items := selected_menu_items s;
     processing_job_id := processing_job_id s;
     extracted_menu_options := extracted_menu_options s;
     document_processed := document_processed s;
     extracted_items_persistent := items;
     doc_processed_persistent := true;
     api_key := api_key s;
     api_key_valid := api_key_valid s;
     processed_files := processed_files s |}.

Definition set_processed_files (files : gset (text * N)) (s : session_state)
  : session_state :=
  {| selected_menu_items := selected_menu_items s;
     processing_job_id := processing_job_id s;
     extracted_menu_options := extracted_menu_options s;
     document_processed := document_processed s;
     extracted_items_persistent := extracted_items_persistent s;
     doc_processed_persistent := doc_processed_persistent s;
     api_key := api_key s;
     api_key_valid := api_key_valid s;
     processed_files := files |}.

(** The backend answers the [n]-th request of a run as it pleases.
    [tempdir_join name] is the path that
    [os.path.join(tempfile.gettempdir(), name)] evaluates to on the host
    of the script. *)
Record world := {
  backend : nat -> request -> http_outcome;
  tempdir_join : text -> text;
  session : session_state;
  trace : list event           (* oldest first *)
}.

Definition requests_of (t : list event) : list request :=
  omap (fun e => match e with Http r => Some r | _ => None end) t.

Definition requests_issued (w : world) : nat := length (requests_of (trace w)).

Definition log (e : event) (w : world) : world :=
  {| backend := backend w; tempdir_join := tempdir_join w;
     session := session w; trace := trace w ++ [e] |}.

Definition with_session (f : session_state -> session_state) (w : world) : world :=
  {| backend := backend w; tempdir_join := tempdir_join w;
     session := f (session w); trace := trace w |}.

(** How a computation ends: with a value, with an exception, or not yet
    (the loop it runs has used up the steps it was given). *)
Inductive result (A : Type) :=
| Ok (a : A)
| Raise (e : exn)
| Running.
Arguments Ok {A} a.
Arguments Raise {A} e.
Arguments Running {A}.

Definition M (A : Type) : Type := world -> result A * world.

Definition ret {A} (a : A) : M A := fun w => (Ok a, w).

Definition bind {A B} (m : M A) (k : A -> M B) : M B :=
  fun w =>
    match m w with
    | (Ok a, w') => k a w'
    | (Raise e, w') => (Raise e, w')
    | (Running, w') => (Running, w')
    end.

Definition raise {A} (e : exn) : M A := fun w => (Raise e, w).

(** [try: m  except <those e with catches e>: h e] *)
Definition try_except {A} (m : M A) (catches : exn -> bool) (h : exn -> M A) : M A :=
  fun w =>
    match m w with
    | (Raise e, w') => if catches e then h e w' else (Raise e, w')
    | r => r
    end.

Definition lift {A} (r : exn + A) : M A :=
  match r with
  | inr a => ret a
  | inl e => raise e
  end.

Definition emit (e : event) : M unit := fun w => (Ok tt, log e w).

Definition st (k : st_kind) (msg : fstring) : M unit := emit (St k msg).

Definition sleep (seconds : nat) : M unit := emit (Sleep seconds).

Definition get_session : M session_state := fun w => (Ok (session w), w).

(** [os.path.join(tempfile.gettempdir(), name)] *)
Definition gettempdir_join (name : text) : M text :=
  fun w => (Ok (tempdir_join w name), w).

Definition update_session (f : session_state -> session_state) : M unit :=
  fun w => (Ok tt, with_session f w).

(** [requests.get] / [requests.post]: the request is recorded, then the
    backend's answer to it is returned or raised. *)
Definition http (r : request) : M response :=
  fun w =>
    let w' := log (Http r) w in
    match backend w (requests_issued w) r with
    | Responds resp => (Ok resp, w')
    | Fails k => (Raise (RequestsError k), w')
    end.

(** [response.json()] *)
Definition json (r : response) : M value :=
  match resp_json r with
  | Some v => ret v
  | None => raise JSONDecodeError
  end.

(** [st.stop()] and [st.rerun()] *)
Definition st_stop {A} : M A := raise StopException.
Definition st_rerun {A} : M A := raise RerunException.

End IO.
Export IO.

Declare Scope io_scope.
Delimit Scope io_scope with io.
Bind Scope io_scope with M.
Notation "x <- m ;; k" := (bind m (fun x => k))
  (at level 100, m at next level, right associativity) : io_scope.
Notation "m ;; k" := (bind m (fun _ => k))
  (at level 100, right associativity) : io_scope.
Open Scope io_scope.

(** ** The functions of [app.py] *)

Module App.

Definition plain_request (v : verb) (path : fstring) (timeout : option nat) : request :=
  {| req_verb := v; req_path := path; req_params := []; req_json := None;
     req_headers := []; req_timeout := timeout |}.

Definition CONTENT_TYPE : text * text := (py "Content-Type", py "application/json").

Definition bearer (key : text) : text * text :=
  (py "Authorization", py "Bearer " ++ key).

(** Lines 90-97. *)
Definition get_headers : M (list (text * text)) :=
  s <- get_session ;;
  if negb (nonempty (api_key s)) then ret [CONTENT_TYPE]
  else ret [bearer (api_key s); CONTENT_TYPE].

Definition HEALTH : request := plain_request GET [FLit (py "/health")] (Some 5%nat).
Definition ROOT : request := plain_request GET [FLit (py "/")] (Some 5%nat).

(** Lines 100-112.  The bare [except:] catches everything. *)
Definition check_backend_health : M bool :=
  try_except
    (response <- http HEALTH ;;
     if (status_code response =? 200)%Z then ret true
     else
       response <- http ROOT ;;
       ret (status_code response =? 200)%Z)
    (fun _ => true)
    (fun _ => ret false).

(** Lines 115-130.  The second component is the response, or a string. *)
Definition test_api_key (key : option text) : M (bool * (response + fstring)) :=
  s <- get_session ;;
  let given := match key with Some k => nonempty k | None => false end in
  if negb given && negb (nonempty (api_key s))
  then ret (false, inr [FLit (py "No API key provided")])
  else
    let test_key := if given then default [] key else api_key s in
    let headers := [bearer test_key; CONTENT_TYPE] in
    try_except
      (response <- http {| req_verb := GET; req_path := [FLit (py "/api-info")];
                           req_params := []; req_json := None;
                           req_headers := headers; req_timeout := Some 5%nat |} ;;
       ret ((status_code response =? 200)%Z, inl response))
      is_Exception
      (fun e => ret (false, inr [FExn e])).

Definition backend_error (response : response) : fstring :=
  [FLit (py "Backend error: "); FVal (VInt (status_code response));
   FLit (py " - "); FText (resp_text response)].

Definition texts (l : list text) : value := VList (VStr <$> l).

Definition ANALYZE_MENU_PATH : fstring := [FLit (py "/analyze-menu")].

(** Lines 133-171.  [x or []] is [x] for the lists the widgets return. *)
Definition analyze_menu_api (menu_items : list text)
    (dietary_preferences health_conditions : list text) (age_group : text) : M value :=
  try_except
    (let payload := VDict
         [(py "menu_items", texts menu_items);
          (py "dietary_preferences", texts dietary_preferences);
          (py "health_conditions", texts health_conditions);
          (py "age_group", VStr age_group)] in
     headers <- get_headers ;;
     response <- http {| req_verb := POST; req_path := ANALYZE_MENU_PATH;
                         req_params := []; req_json := Some payload;
                         req_headers := headers; req_timeout := Some 120%nat |} ;;
     if (status_code response =? 200)%Z then json response
     else st st_error (backend_error response) ;; ret VNone)
    is_Exception
    (fun e =>
       if is_Timeout e then
         st st_error [FLit (py "⏱️ Request timed out. The AI analysis is taking longer than expected.")] ;;
         ret VNone
       else if is_ConnectionError e then
         st st_error [FLit (py "🔌 Cannot connect to the backend. Please ensure the FastAPI server is running.")] ;;
         ret VNone
       else
         st st_error [FLit (py "❌ Error communicating with backend: "); FExn e] ;;
         ret VNone).

Definition RECOMMENDATIONS_PATH : fstring := [FLit (py "/get-recommendations")].

(** Lines 174-192. *)
Definition get_food_recommendations_api (query : text) : M value :=
  try_except
    (headers <- get_headers ;;
     response <- http {| req_verb := POST; req_path := RECOMMENDATIONS_PATH;
                         req_params := [(py "query", [FText query])]; req_json := None;
                         req_headers := headers; req_timeout := Some 60%nat |} ;;
     if (status_code response =? 200)%Z then
       body <- json response ;;
       lift (getitem body (py "recommendations"))
     else st st_error (backend_error response) ;; ret VNone)
    is_Exception
    (fun e =>
       st st_error [FLit (py "❌ Error getting recommendations: "); FExn e] ;;
       ret VNone).

(** Lines 195-213. *)
Definition start_document_processing_job (file_path : text) : M value :=
  try_except
    (headers <- get_headers ;;
     response <- http {| req_verb := POST; req_path := [FLit (py "/extract-menu-items")];
                         req_params := [(py "file_path", [FText file_path])]; req_json := None;
                         req_headers := headers; req_timeout := Some 30%nat |} ;;
     if (status_code response =? 200)%Z then json response
     else st st_error (backend_error response) ;; ret VNone)
    is_Exception
    (fun e =>
       st st_error [FLit (py "❌ Error starting document processing: "); FExn e] ;;
       ret VNone).

Definition job_request (job_id : value) (headers : list (text * text)) : request :=
  {| req_verb := GET; req_path := [FLit (py "/jobs/"); FVal job_id];
     req_params := []; req_json := None;
     req_headers := headers; req_timeout := Some 10%nat |}.

(** The payload line 226 makes up for a 404. *)
Definition NOT_FOUND_PAYLOAD : value :=
  VDict [(py "status", VStr (py "not_found"));
         (py "error", VStr (py "Job not found or expired"))].

(** Lines 216-238. *)
Definition get_job_status (job_id : value) : M value :=
  try_except
    (headers <- get_headers ;;
     response <- http (job_request job_id headers) ;;
     if (status_code response =? 200)%Z then json response
     else if (status_code response =? 404)%Z then ret NOT_FOUND_PAYLOAD
     else
       st st_error [FLit (py "Backend returned "); FVal (VInt (status_code response));
                    FLit (py ": "); FText (resp_text response)] ;;
       ret VNone)
    is_Exception
    (fun e =>
       if is_Timeout e then
         st st_warning [FLit (py "⏱️ Request timed out while checking job status")] ;;
         ret VNone
       else if is_ConnectionError e then
         st st_error [FLit (py "🔌 Cannot connect to backend")] ;;
         ret VNone
       else
         st st_error [FLit (py "❌ Error getting job status: "); FExn e] ;;
         ret VNone).

(** Lines 241-264. *)
Definition extract_menu_from_job (job_id : value) : M value :=
  try_except
    (headers <- get_headers ;;
     response <- http {| req_verb := POST;
                         req_path := [FLit (py "/jobs/"); FVal job_id; FLit (py "/extract-menu")];
                         req_params := []; req_json := None;
                         req_headers := headers; req_timeout := Some 30%nat |} ;;
     if (status_code response =? 200)%Z then json response
     else if (status_code response =? 404)%Z then
       st st_warning [FLit (py "Job not found for menu extraction")] ;; ret VNone
     else
       st st_error [FLit (py "Menu extraction failed: "); FVal (VInt (status_code response));
                    FLit (py " - "); FText (resp_text response)] ;;
       ret VNone)
    is_Exception
    (fun e =>
       if is_Timeout e then
         st st_warning [FLit (py "⏱️ Menu extraction request timed out")] ;; ret VNone
       else
         st st_error [FLit (py "❌ Error extracting menu: "); FExn e] ;; ret VNone).

Section WithUnicode.
Context (U : Unicode).

(** [content.split] and the other string methods exist on strings only. *)
Definition as_str (content : value) : M text :=
  match content with
  | VStr c => ret c
  | _ => raise AttributeError
  end.

(** [content[:2000]], evaluated for the prompt of line 271: strings and
    lists can be sliced. *)
Definition slice_check (content : value) : M unit :=
  match content with
  | VStr _ | VList _ => ret tt
  | _ => raise TypeError
  end.

Definition content_frag (content : value) : frag :=
  match content with
  | VStr c => FText c
  | v => FVal v
  end.

(** Lines 340-378, called on whatever [content] is. *)
Definition parse_menu_items_simple_call (content : value) : M (list text) :=
  c <- as_str content ;;
  ret (parse_menu_items_simple U c).

(** Lines 267-337.  The prompt is built and never sent; the answer of the
    backend is decoded and never used: the items come from [content]. *)
Definition extract_menu_items_from_content (content : value) : M (list text) :=
  try_except
    (slice_check content ;;
     headers <- get_headers ;;
     response <- http {| req_verb := POST; req_path := RECOMMENDATIONS_PATH;
                         req_params := [(py "query",
                                         [FLit (py "Extract menu items from: ");
                                          content_frag content])];
                         req_json := None;
                         req_headers := headers; req_timeout := Some 30%nat |} ;;
     if (status_code response =? 200)%Z then
       body <- json response ;;
       ai_response <- lift (getitem body (py "recommendations")) ;;
       c <- as_str content ;;
       ret (extract_items U c)
     else parse_menu_items_simple_call content)
    is_Exception
    (fun e =>
       st st_warning [FLit (py "AI extraction failed: "); FExn e;
                      FLit (py ", using simple parsing")] ;;
       parse_menu_items_simple_call content).

End WithUnicode.

(** Lines 386-416: the body of [while True:].  [fuel] bounds the number
    of iterations a run is followed for; when it is used up the loop has
    not ended and the outcome is [Running].  The loop has no other exit
    than its [return]s: it never reads [max_polls]. *)
Fixpoint poll_loop (fuel : nat) (job_id : value) (poll_count : nat) : M value :=
  match fuel with
  | O => fun w => (Running, w)
  | S fuel' =>
      status_data <- get_job_status job_id ;;
      let poll_count := S poll_count in
      if negb (truthy status_data) then
        st st_error [FLit (py "❌ Could not get job status (attempt ");
                     FNat poll_count; FLit (py ")")] ;;
        ret VNone
      else
        status <- lift (get status_data (py "status") (VStr (py "unknown"))) ;;
        if eq_str status (py "completed") then ret status_data
        else if eq_str status (py "failed") then
          error <- lift (get status_data (py "error") (VStr (py "Unknown error"))) ;;
          st st_error [FLit (py "❌ Job failed: "); FVal error] ;;
          ret VNone
        else if eq_str status (py "not_found") then
          st st_error [FLit (py "❌ Job not found or expired")] ;;
          ret VNone
        else if eq_str status (py "pending") || eq_str status (py "running") then
          progress <- lift (get status_data (py "progress") (VInt 0)) ;;
          sleep 8 ;;
          poll_loop fuel' job_id poll_count
        else
          st st_warning [FLit (py "Unknown status: "); FVal status;
                         FLit (py " (Poll "); FNat poll_count; FLit (py ")")] ;;
          sleep 8 ;;
          poll_loop fuel' job_id poll_count
  end.

(** Lines 381-420.  Lines 418-420, behind the loop, report a timeout;
    nothing leads to them. *)
Definition poll_job_until_complete (fuel : nat) (job_id : value) : M value :=
  let max_polls := 100%nat in
  let poll_count := 0%nat in
  poll_loop fuel job_id poll_count.

(** *** The script run: [main]

    One run of [main] reads the widgets once; their values are the
    inputs of the run.  Calls that only lay out or display (markdown,
    headers, dividers, expanders, columns, metrics, tabs, disabled text
    areas) issue no request and touch no session field; they are left
    out, and so is the display code of lines 475-493, whose exceptions
    the bare [except: pass] swallows. *)

Inductive method := UploadDocument | TypeMenuItems.

Record uploaded := { file_name : text; file_size : N }.

Record inputs := {
  api_key_input : text;                (* line 452 *)
  test_api_key_clicked : bool;         (* line 466 *)
  selected_category : text;            (* line 548 *)
  view_guidelines_clicked : bool;      (* line 554 *)
  input_method : method;               (* line 619 *)
  uploaded_file : option uploaded;     (* line 626 *)
  reprocess_clicked : bool;            (* line 800 *)
  selected_from_doc : list value;      (* line 830 *)
  custom_additions : text;             (* line 838 *)
  typed_menu_items : text;             (* line 866 *)
  age_group : text;                    (* line 892 *)
  dietary_preferences : list text;     (* line 900 *)
  health_conditions : list text;       (* line 917 *)
  submitted : bool;                    (* line 932 *)
  recommendation_query : text;         (* line 965 *)
  get_recommendations_clicked : bool   (* line 971 *)
}.

(** The list of lines 713-722 (and 738-745). *)
Definition FALLBACK_ITEMS : list text :=
  [py "Chicken Rice"; py "Laksa"; py "Char Kway Teow"; py "Prawn Mee";
   py "Bak Chor Mee"; py "Fish and Chips"; py "Nasi Lemak"; py "Kaya Toast"].

Section Main.
Context (U : Unicode).

(** Lines 452-511. *)
Definition sidebar_api_key (inp : inputs) : M unit :=
  s <- get_session ;;
  (if bool_decide (api_key_input inp = api_key s) then ret tt
   else update_session (fun s => set_api_key_valid false (set_api_key (api_key_input inp) s))) ;;
  (if test_api_key_clicked inp && nonempty (strip U (api_key_input inp)) then
     r <- test_api_key (Some (api_key_input inp)) ;;
     if r.1 then
       update_session (set_api_key_valid true) ;;
       st st_success [FLit (py "✅ API key is valid!")]
     else
       update_session (set_api_key_valid false) ;;
       st st_error [FLit (py "❌ Invalid API key")] ;;
       st st_error (FLit (py "Error: ") ::
                    match r.2 with
                    | inr msg => msg
                    | inl _ => [FLit (py "Authentication failed")]
                    end)
   else ret tt) ;;
  s <- get_session ;;
  if nonempty (api_key s) then
    if api_key_valid s then st st_success [FLit (py "🟢 API key authenticated")]
    else st st_warning [FLit (py "🟡 API key not tested - click 'Test API Key' above")]
  else st st_info [FLit (py "🔑 Enter an API key to access protected features")].

(** Lines 554-567. *)
Definition sidebar_guidelines (inp : inputs) : M unit :=
  if view_guidelines_clicked inp then
    try_except
      (headers <- get_headers ;;
       response <- http {| req_verb := GET;
                           req_path := [FLit (py "/singapore-guidelines/");
                                        FText (selected_category inp)];
                           req_params := []; req_json := None;
                           req_headers := headers; req_timeout := None |} ;;
       if (status_code response =? 200)%Z then
         guidelines <- json response ;; ret tt
       else st st_error [FLit (py "Failed to fetch guidelines")])
      is_Exception
      (fun e => st st_error [FLit (py "Error: "); FExn e])
  else ret tt.

(** Lines 693-709 and 764-778: the options go to both session copies and
    the file is marked as processed. *)
Definition store_options (options : list text) (file_key : text * N) : M unit :=
  update_session (fun s =>
    set_processed_files ({[file_key]} ∪ processed_files s)
      (set_extracted_items_persistent (texts options)
         (set_extracted_menu_options options s))).

(** [a and b], where [b] is a comparison computed from [a]. *)
Definition and_test (a : value) (b : M bool) : M bool :=
  if truthy a then b else ret false.

Definition status_is (result : value) (s : text) : M bool :=
  and_test result (status <- lift (get result (py "status") VNone) ;;
                   ret (eq_str status s)).

(** Lines 649-724: the backend has started a job. *)
Definition process_job (fuel : nat) (result : value) (file_key : text * N) : M unit :=
  job_id <- lift (getitem result (py "job_id")) ;;
  st st_info [FLit (py "📄 Document processing started! Job ID: "); FVal job_id] ;;
  final_result <- poll_job_until_complete fuel job_id ;;
  if truthy final_result then
    st st_success [FLit (py "✅ Document processing completed!")] ;;
    extraction_result <- extract_menu_from_job job_id ;;
    has_content <- and_test extraction_result
                     (c <- lift (get extraction_result (py "document_content") VNone) ;;
                      ret (truthy c)) ;;
    if has_content then
      content <- lift (getitem extraction_result (py "document_content")) ;;
      st st_success [FLit (py "✅ Document content extracted!")] ;;
      extracted_menu_items <- extract_menu_items_from_content U content ;;
      match extracted_menu_items with
      | [] => ret tt
      | _ =>
          st st_success [FLit (py "✅ Found "); FNat (length extracted_menu_items);
                         FLit (py " menu items!")] ;;
          store_options (unique_options U extracted_menu_items) file_key
      end
    else
      st st_error [FLit (py "Failed to extract content from document.")] ;;
      update_session (set_selected_menu_items (VStr <$> take 3 FALLBACK_ITEMS)) ;;
      st st_info [FLit (py "Using common Singapore dishes as fallback.")]
  else ret tt.

(** Lines 726-754. *)
Definition process_fallback_success (result : value) (file_key : text * N) : M unit :=
  st st_warning [FLit (py "⚠️ Document processing encountered issues, using fallback items.")] ;;
  error <- lift (get result (py "error") VNone) ;;
  (if truthy error then st st_error [FVal error] else ret tt) ;;
  fallback_items <- lift (get result (py "menu_items") (texts FALLBACK_ITEMS)) ;;
  update_session (fun s =>
    set_processed_files ({[file_key]} ∪ processed_files s)
      (set_extracted_items_persistent fallback_items s)) ;;
  n <- lift (len fallback_items) ;;
  st st_info [FLit (py "Using "); FNat n; FLit (py " common Singapore dishes.")].

(** Lines 756-778. *)
Definition process_cache_hit (result : value) (file_key : text * N) : M unit :=
  extracted_menu_items <- lift (get result (py "menu_items") (VList [])) ;;
  n <- lift (len extracted_menu_items) ;;
  st st_success [FLit (py "✅ Found "); FNat n; FLit (py " menu items!")] ;;
  all_options <- lift (iter extracted_menu_items) ;;
  items <- lift (strings_or AttributeError all_options) ;;
  store_options (unique_options U items) file_key.

(** Lines 625-804. *)
Definition menu_upload (fuel : nat) (inp : inputs) : M unit :=
  match input_method inp, uploaded_file inp with
  | UploadDocument, Some f =>
      let file_key := (file_name f, file_size f) in
      s <- get_session ;;
      if bool_decide (file_key ∈ processed_files s) then
        st st_success [FLit (py "✅ "); FText (file_name f); FLit (py " already processed!")] ;;
        if truthy (extracted_items_persistent s) then
          items_count <- lift (len (extracted_items_persistent s)) ;;
          st st_info [FLit (py "Found "); FNat items_count;
                      FLit (py " menu items from this document")] ;;
          if reprocess_clicked inp then
            update_session (fun s => set_processed_files (processed_files s ∖ {[file_key]}) s) ;;
            st_rerun
          else ret tt
        else ret tt
      else
        temp_path <- gettempdir_join (py "temp_" ++ file_name f) ;;
        emit (FileWrite temp_path) ;;
        result <- start_document_processing_job temp_path ;;
        has_job <- and_test result (job_id <- lift (get result (py "job_id") VNone) ;;
                                    ret (truthy job_id)) ;;
        if has_job then process_job fuel result file_key
        else
          fallback <- status_is result (py "fallback_success") ;;
          if fallback then process_fallback_success result file_key
          else
            cached <- status_is result (py "cache_hit") ;;
            if cached then process_cache_hit result file_key
            else
              st st_error [FLit (py "❌ Failed to start document processing.")] ;;
              (if truthy result then st st_error [FLit (py "Backend response: "); FVal result]
               else ret tt) ;;
              emit (FileRemove temp_path)
  | _, _ => ret tt
  end.

(** Lines 806-861. *)
Definition menu_selection (inp : inputs) : M unit :=
  s <- get_session ;;
  let has_extracted_items :=
    or_value (extracted_items_persistent s) (texts (extracted_menu_options s)) in
  let doc_processed := doc_processed_persistent s || document_processed s in
  match input_method inp with
  | UploadDocument =>
      if doc_processed && truthy has_extracted_items then
        let menu_options :=
          or_value (extracted_items_persistent s) (texts (extracted_menu_options s)) in
        n <- lift (len menu_options) ;;
        st st_success [FLit (py "📄 Document processed! Found "); FNat n;
                       FLit (py " menu options.")] ;;
        let all_selected :=
          selected_from_doc inp ++
          (if nonempty (custom_additions inp)
           then VStr <$> parse_custom_additions U (custom_additions inp)
           else []) in
        update_session (set_selected_menu_items all_selected) ;;
        match all_selected with
        | [] => st st_info [FLit (py "👆 Select items above to analyze")]
        | _ =>
            shown <- lift (join_values (py ", ") (take 3 all_selected)) ;;
            st st_success [FLit (py "✅ Selected "); FNat (length all_selected);
                           FLit (py " items: "); FText shown;
                           FLit (if (3 <? length all_selected)%nat then py "..." else [])]
        end
      else ret tt
  | TypeMenuItems => ret tt
  end.

(** Lines 864-887: the text the form hands to the analysis. *)
Definition menu_form (inp : inputs) : M text :=
  match input_method inp with
  | TypeMenuItems => ret (typed_menu_items inp)
  | UploadDocument =>
      s <- get_session ;;
      match selected_menu_items s with
      | [] =>
          st st_warning [FLit (py "⚠️ No items selected. Please select items from the menu above.")] ;;
          ret []
      | items => lift (join_values [LF] items)
      end
  end.

(** Lines 983-1050: only dictionaries have the [get] of line 1006; the
    tabs of the nutritional analysis and of the compliance say so when
    the results have none. *)
Definition display_results (results : value) (menu_items : list text) : M unit :=
  st st_success [FLit (py "✅ Analysis complete!")] ;;
  recommendations <- lift (get results (py "recommendations") VNone) ;;
  nutrition_data <- lift (get results (py "nutritional_analysis") VNone) ;;
  (if truthy nutrition_data then ret tt
   else st st_info [FLit (py "No nutritional analysis available")]) ;;
  compliance_data <- lift (get results (py "singapore_guidelines_compliance") VNone) ;;
  (if truthy compliance_data then ret tt
   else st st_info [FLit (py "No compliance analysis available")]) ;;
  alternatives <- lift (get results (py "alternatives") VNone) ;;
  ret tt.

(** Lines 937-959; [false] when line 947 returns from [main]. *)
Definition menu_analysis (inp : inputs) (menu_items_input : text) : M bool :=
  if submitted inp && nonempty (strip U menu_items_input) then
    let menu_items := parse_typed_menu U menu_items_input in
    match menu_items with
    | [] => st st_error [FLit (py "Please enter at least one menu item.")] ;; ret false
    | _ =>
        results <- analyze_menu_api menu_items (dietary_preferences inp)
                     (health_conditions inp) (age_group inp) ;;
        (if truthy results then display_results results menu_items else ret tt) ;;
        ret true
    end
  else if submitted inp then
    st st_error [FLit (py "Please enter at least one menu item to analyze.")] ;;
    ret true
  else ret true.

(** Lines 961-980. *)
Definition food_recommendations (inp : inputs) : M unit :=
  if get_recommendations_clicked inp && nonempty (strip U (recommendation_query inp)) then
    recommendations <- get_food_recommendations_api (recommendation_query inp) ;;
    ret tt
  else ret tt.

(** Lines 569-980: what follows the sidebar. *)
Definition main_content (fuel : nat) (inp : inputs) : M unit :=
  healthy <- check_backend_health ;;
  if negb healthy then st_stop
  else
    s <- get_session ;;
    if negb (nonempty (api_key s)) then
      st st_warning [FLit (py "🔑 **API Key Required**")] ;;
      st st_info [FLit (py "Please enter your API key in the sidebar to access the Singapore AI Dietician features.")] ;;
      st_stop
    else if negb (api_key_valid s) then
      st st_warning [FLit (py "🟡 **API Key Not Validated**")] ;;
      st st_info [FLit (py "Your API key hasn't been tested yet. Please click 'Test API Key' in the sidebar to validate it.")] ;;
      st_stop
    else
      menu_upload fuel inp ;;
      menu_selection inp ;;
      menu_items_input <- menu_form inp ;;
      continue <- menu_analysis inp menu_items_input ;;
      if continue then food_recommendations inp else ret tt.

(** Lines 423-980. *)
Definition main (fuel : nat) (inp : inputs) : M unit :=
  healthy <- check_backend_health ;;
  if healthy then
    st st_success [FLit (py "✅ Backend connected")] ;;
    sidebar_api_key inp ;;
    sidebar_guidelines inp ;;
    main_content fuel inp
  else
    st st_error [FLit (py "❌ Backend disconnected")] ;;
    st st_warning [FLit (py "Please start the FastAPI backend:\n```bash\npython app/main.py\n```")] ;;
    ret tt.

End Main.

End App.
Export App.

(** ** Vocabulary of the properties *)

Module Props.

(** The world after further events. *)
Definition extend (w : world) (evs : list event) : world :=
  {| backend := backend w; tempdir_join := tempdir_join w;
     session := session w; trace := trace w ++ evs |}.

(** The headers [get_headers] builds from a session. *)
Definition headers_of (s : session_state) : list (text * text) :=
  if negb (nonempty (api_key s)) then [CONTENT_TYPE]
  else [bearer (api_key s); CONTENT_TYPE].

(** The backend's answer to the [i]-th status request of a polling run
    that starts in [w]. *)
Definition status_reply (w : world) (job_id : value) (i : nat) : http_outcome :=
  backend w (requests_issued w + i)%nat (job_request job_id (headers_of (session w))).

(** The status payload a reply carries: the decoded body of a 200, the
    payload the client makes up for a 404, and nothing otherwise (the
    request failed, or the body of the 200 is no JSON). *)
Definition reply_payload (o : http_outcome) : option value :=
  match o with
  | Responds r =>
      if (status_code r =? 200)%Z then resp_json r
      else if (status_code r =? 404)%Z then Some NOT_FOUND_PAYLOAD
      else None
  | Fails _ => None
  end.

(** The status a payload reports; ["unknown"] when it names none. *)
Definition status_of (payload : value) : option value :=
  match payload with
  | VDict d => Some (default (VStr (py "unknown")) (dict_lookup d (py "status")))
  | _ => None
  end.

Definition has_status (payload : value) (s : text) : bool :=
  match status_of payload with
  | Some v => eq_str v s
  | None => false
  end.

Definition is_terminal (status : value) : bool :=
  eq_str status (py "completed") || eq_str status (py "failed")
  || eq_str status (py "not_found").

(** A reply that carries a status payload whose status is not terminal. *)
Definition non_terminal (o : http_outcome) : bool :=
  match reply_payload o with
  | Some payload =>
      truthy payload &&
      match status_of payload with
      | Some status => negb (is_terminal status)
      | None => false
      end
  | None => false
  end.

(** The message lines 418-420 would show. *)
Definition TIMEOUT_REPORT : event :=
  St st_error [FLit (py "❌ Job polling timed out after 5 minutes")].

(** No two items at different positions are equal up to letter case. *)
Definition no_case_duplicates (U : Unicode) (items : list text) : Prop :=
  forall i j x y, i <> j -> items !! i = Some x -> items !! j = Some y ->
                  lower U x <> lower U y.

(** Texts of ASCII characters, and tables that agree on them with the
    ASCII ones, as the tables of every Python do. *)
Definition ascii_text (s : text) : Prop := Forall (fun c => c < 128) s.

Definition ascii_compatible (U : Unicode) : Prop :=
  (forall c, c < 128 -> isspace U c = ascii_isspace c)
  /\ (forall c, c < 128 -> isdecimal U c = ascii_isdigit c)
  /\ (forall c, c < 128 -> isnumeric_char U c = ascii_isdigit c)
  /\ (forall s, ascii_text s -> lower U s = map ascii_lower_char s).

(** A liveness probe that does not answer 200. *)
Definition probe_fails (o : http_outcome) : bool :=
  match o with
  | Responds r => negb (status_code r =? 200)%Z
  | Fails _ => true
  end.

(** Both probes of a health check that starts in [w] fail. *)
Definition health_fails (w : world) : Prop :=
  probe_fails (backend w (requests_issued w) HEALTH) = true /\
  probe_fails (backend w (S (requests_issued w)) ROOT) = true.

(** The AI-assisted call does not go through: no 200, or an exception
    from the request or from reading ["recommendations"] in its body. *)
Definition ai_call_fails (o : http_outcome) : bool :=
  match o with
  | Fails _ => true
  | Responds r =>
      if (status_code r =? 200)%Z then
        match resp_json r with
        | Some body =>
            match getitem body (py "recommendations") with
            | inr _ => false
            | inl _ => true
            end
        | None => true
        end
      else true
  end.

(** The request of lines 281-286 for a string [content]. *)
Definition ai_request (s : session_state) (content : text) : request :=
  {| req_verb := POST; req_path := RECOMMENDATIONS_PATH;
     req_params := [(py "query", [FLit (py "Extract menu items from: "); FText content])];
     req_json := None;
     req_headers := headers_of s; req_timeout := Some 30%nat |}.

(** Document-content extraction yields nothing: no result, or a result
    without a (non-empty) ["document_content"]. *)
Definition no_document_content (extraction_result : value) : bool :=
  match extraction_result with
  | VDict d => negb (truthy (default VNone (dict_lookup d (py "document_content"))))
  | v => negb (truthy v)
  end.

End Props.
Export Props.

(** ** Concrete runs *)

Module Scenarios.

Definition answer (code : Z) (body : option value) : http_outcome :=
  Responds {| status_code := code; resp_text := []; resp_json := body |}.

Definition status_payload (s : text) : value := VDict [(py "status", VStr s)].

(** A backend that answers the requests of a run from a script, in
    order, and keeps giving [last] once the script is used up. *)
Definition scripted (script : list http_outcome) (last : http_outcome)
  : nat -> request -> http_outcome :=
  fun n _ => default last (script !! n).

(** A host whose temporary directory is [/tmp]. *)
Definition tmp (name : text) : text := py "/tmp/" ++ name.

Definition start (b : nat -> request -> http_outcome) : world :=
  {| backend := b; tempdir_join := tmp; session := initial_session; trace := [] |}.

Definition JOB : value := VStr (py "job-1").

Definition PENDING : http_outcome := answer 200 (Some (status_payload (py "pending"))).
Definition RUNNING : http_outcome := answer 200 (Some (status_payload (py "running"))).

(** The payload of a finished job. *)
Definition DONE : value :=
  VDict [(py "status", VStr (py "completed")); (py "progress", VInt 100)].

(** A job that stays pending for ever. *)
Definition always_pending : world := start (scripted [] PENDING).

(** A job that is pending, then running, then completed. *)
Definition completes : world :=
  start (scripted [PENDING; RUNNING] (answer 200 (Some DONE))).

(** A job that is pending, then failed. *)
Definition fails : world :=
  start (scripted [PENDING]
           (answer 200 (Some (VDict [(py "status", VStr (py "failed"));
                                     (py "error", VStr (py "out of memory"))])))).

(** A job whose second status request runs into a gateway error. *)
Definition breaks : world := start (scripted [PENDING] (answer 502 None)).

(** A backend that has forgotten the job, and says so with a body of
    its own. *)
Definition forgotten : world := start (scripted [] (answer 404 (Some DONE))).

(** A backend whose AI-assisted extraction call goes through. *)
Definition helpful : world :=
  start (scripted [] (answer 200 (Some (VDict [(py "recommendations", VStr (py "ok"))])))).

(** A menu that names one dish twice, in different letter case. *)
Definition SHOUTED_MENU : text := py "Chicken Rice\nCHICKEN RICE".

(** The answer of the backend that has started a job. *)
Definition STARTED : value := VDict [(py "job_id", JOB)].

(** A backend whose job finishes at once, and whose extraction of the
    document content then breaks. *)
Definition extraction_breaks : world :=
  start (scripted [answer 200 (Some DONE)] (answer 500 None)).

(** The user types a menu and asks for its analysis. *)
Definition analysis_request : inputs := {|
  api_key_input := py "fai_0123456789";
  test_api_key_clicked := false;
  selected_category := py "my_healthy_plate";
  view_guidelines_clicked := false;
  input_method := TypeMenuItems;
  uploaded_file := None;
  reprocess_clicked := false;
  selected_from_doc := [];
  custom_additions := [];
  typed_menu_items := py "Chicken Rice\nLaksa, Kaya Toast";
  age_group := py "adult";
  dietary_preferences := [];
  health_conditions := [];
  submitted := true;
  recommendation_query := [];
  get_recommendations_clicked := false
|}.

(** A backend whose first answer is lost, and that answers 200 from
    then on. *)
Definition hiccup : world := start (scripted [Fails ReadTimeout] (answer 200 None)).

(** A session that holds a validated key. *)
Definition signed_in : world :=
  {| backend := scripted [] (answer 200 None);
     tempdir_join := tmp;
     session := set_api_key_valid true (set_api_key (py "fai_0123456789") initial_session);
     trace := [] |}.

(** A job that is pending, and whose status is then sent as a list. *)
Definition garbled : world :=
  start (scripted [PENDING] (answer 200 (Some (VList [VStr (py "completed")])))).

(** An uploaded menu, and the inputs of a run that uploads it. *)
Definition MENU_PDF : uploaded := {| file_name := py "menu.pdf"; file_size := 1024 |}.

Definition upload_again : inputs := {|
  api_key_input := py "fai_0123456789";
  test_api_key_clicked := false;
  selected_category := py "my_healthy_plate";
  view_guidelines_clicked := false;
  input_method := UploadDocument;
  uploaded_file := Some MENU_PDF;
  reprocess_clicked := true;
  selected_from_doc := [];
  custom_additions := [];
  typed_menu_items := [];
  age_group := py "adult";
  dietary_preferences := [];
  health_conditions := [];
  submitted := false;
  recommendation_query := [];
  get_recommendations_clicked := false
|}.

(** A session in which that menu has been processed. *)
Definition processed : world :=
  {| backend := scripted [] (answer 200 None);
     tempdir_join := tmp;
     session := set_processed_files {[(py "menu.pdf", 1024)]}
                  (set_extracted_items_persistent (texts [py "Chicken Rice"])
                     (set_api_key_valid true
                        (set_api_key (py "fai_0123456789") initial_session)));
     trace := [] |}.

(** A visitor without a key who looks up the guidelines and presses
    every button. *)
Definition browsing : inputs := {|
  api_key_input := [];
  test_api_key_clicked := true;
  selected_category := py "sodium_guidelines";
  view_guidelines_clicked := true;
  input_method := TypeMenuItems;
  uploaded_file := None;
  reprocess_clicked := true;
  selected_from_doc := [];
  custom_additions := [];
  typed_menu_items := py "Chicken Rice";
  age_group := py "adult";
  dietary_preferences := [];
  health_conditions := [];
  submitted := true;
  recommendation_query := py "breakfast";
  get_recommendations_clicked := true
|}.

(** A backend that cannot be reached. *)
Definition unreachable : world := start (scripted [] (Fails ConnectionError)).

End Scenarios.

(** ** Vocabulary of the further properties *)

Module Observations.

Definition answers_200 (o : http_outcome) : bool :=
  match o with
  | Responds r => (status_code r =? 200)%Z
  | Fails _ => false
  end.

(** The backend answered, with a status other than 200. *)
Definition answers_other (o : http_outcome) : bool :=
  match o with
  | Responds r => negb (status_code r =? 200)%Z
  | Fails _ => false
  end.

(** The decoded body of a 200 answer. *)
Definition body_of (o : http_outcome) : option value :=
  match o with
  | Responds r => if (status_code r =? 200)%Z then resp_json r else None
  | Fails _ => None
  end.

(** The entry ["recommendations"] of the body of a 200 answer. *)
Definition recommendations_of (o : http_outcome) : option value :=
  match body_of o with
  | Some (VDict d) => dict_lookup d (py "recommendations")
  | _ => None
  end.

(** The seconds slept, the files written and removed, and the messages
    shown, in the order of a trace. *)
Definition sleeps_of (t : list event) : list nat :=
  omap (fun e => match e with Sleep n => Some n | _ => None end) t.

Definition file_events_of (t : list event) : list event :=
  omap (fun e => match e with FileWrite _ | FileRemove _ => Some e | _ => None end) t.

Definition messages_of (t : list event) : list (st_kind * fstring) :=
  omap (fun e => match e with St k msg => Some (k, msg) | _ => None end) t.

(** The requests of the helper functions, for a session [s]. *)
Definition api_info_request (key : text) : request :=
  {| req_verb := GET; req_path := [FLit (py "/api-info")];
     req_params := []; req_json := None;
     req_headers := [bearer key; CONTENT_TYPE]; req_timeout := Some 5%nat |}.

Definition analyze_request (s : session_state) (menu_items : list text)
    (dietary_preferences health_conditions : list text) (age_group : text) : request :=
  {| req_verb := POST; req_path := ANALYZE_MENU_PATH; req_params := [];
     req_json := Some (VDict [(py "menu_items", texts menu_items);
                              (py "dietary_preferences", texts dietary_preferences);
                              (py "health_conditions", texts health_conditions);
                              (py "age_group", VStr age_group)]);
     req_headers := headers_of s; req_timeout := Some 120%nat |}.

Definition recommendations_request (s : session_state) (query : text) : request :=
  {| req_verb := POST; req_path := RECOMMENDATIONS_PATH;
     req_params := [(py "query", [FText query])]; req_json := None;
     req_headers := headers_of s; req_timeout := Some 60%nat |}.

Definition start_request (s : session_state) (file_path : text) : request :=
  {| req_verb := POST; req_path := [FLit (py "/extract-menu-items")];
     req_params := [(py "file_path", [FText file_path])]; req_json := None;
     req_headers := headers_of s; req_timeout := Some 30%nat |}.

Definition extract_menu_request (s : session_state) (job_id : value) : request :=
  {| req_verb := POST;
     req_path := [FLit (py "/jobs/"); FVal job_id; FLit (py "/extract-menu")];
     req_params := []; req_json := None;
     req_headers := headers_of s; req_timeout := Some 30%nat |}.

Definition guidelines_request (s : session_state) (category : text) : request :=
  {| req_verb := GET;
     req_path := [FLit (py "/singapore-guidelines/"); FText category];
     req_params := []; req_json := None;
     req_headers := headers_of s; req_timeout := None |}.

(** The passes of the polling loop that ended in a sleep, among [n]
    passes with the outcome [r]: all of them while the loop is running,
    all but the last once it has ended. *)
Definition passes_slept {A} (r : result A) (n : nat) : nat :=
  match r with
  | Running => n
  | _ => pred n
  end.

(** The button of line 800 is on the page: the items the session
    holds are truthy and have a length. *)
Definition reprocess_offered (s : session_state) : bool :=
  truthy (extracted_items_persistent s)
  && match len (extracted_items_persistent s) with
     | inr _ => true
     | inl _ => false
     end.

(** The strings the loop of lines 766-769 goes through for the answer
    [result] of the backend, or the exception met on the way to them:
    [result.get] needs a dictionary, [len] a string, list or dictionary
    under ["menu_items"] (an empty list when there is no such entry),
    and [item.lower()] strings as its items. *)
Definition cached_items (result : value) : exn + list text :=
  match result with
  | VDict d =>
      let menu_items := default (VList []) (dict_lookup d (py "menu_items")) in
      match len menu_items, iter menu_items with
      | inr _, inr all_options => strings_or AttributeError all_options
      | inl e, _ => inl e
      | _, inl e => inl e
      end
  | _ => inl AttributeError
  end.

(** The characters "/", "|" and ",". *)
Definition SLASH : char := 47.
Definition BAR : char := 124.
Definition COMMA : char := 44.

(** A text without white space at either end. *)
Definition stripped (U : Unicode) (s : text) : Prop :=
  (forall c, head s = Some c -> isspace U c = false)
  /\ (forall c, last s = Some c -> isspace U c = false).

End Observations.
Export Observations.

(** * Properties *)

Section WorldFacts.

Lemma requests_of_app (t1 t2 : list event) :
  requests_of (t1 ++ t2) = requests_of t1 ++ requests_of t2.
Proof. unfold requests_of. apply omap_app. Qed.

Lemma requests_issued_extend (w : world) (evs : list event) :
  requests_issued (extend w evs) = (requests_issued w + length (requests_of evs))%nat.
Proof.
  unfold requests_issued, extend; simpl.
  now rewrite requests_of_app, length_app.
Qed.

Lemma extend_nil (w : world) : extend w [] = w.
Proof. destruct w; unfold extend; simpl. now rewrite app_nil_r. Qed.

Lemma extend_extend (w : world) (e1 e2 : list event) :
  extend (extend w e1) e2 = extend w (e1 ++ e2).
Proof. unfold extend; simpl. now rewrite app_assoc. Qed.

Lemma log_extend (e : event) (w : world) : log e w = extend w [e].
Proof. reflexivity. Qed.

Lemma get_headers_run (w : world) :
  get_headers w = (Ok (headers_of (session w)), w).
Proof.
  unfold get_headers, bind, get_session, headers_of.
  destruct (negb (nonempty (api_key (session w)))); reflexivity.
Qed.

End WorldFacts.

(** Worlds are compared as extensions of the initial one. *)
Ltac norm_world :=
  repeat rewrite log_extend; repeat rewrite extend_extend; simpl app.

(** Two different literals. *)
Ltac py_neq := let H := fresh in intros H; vm_compute in H; discriminate H.

(** Comparisons of a literal status with the literals of the loop. *)
Ltac eval_eq_str :=
  repeat match goal with
    | |- context [eq_str (VStr (py ?a)) (py ?b)] =>
        let r := eval vm_compute in (eq_str (VStr (py a)) (py b)) in
        replace (eq_str (VStr (py a)) (py b)) with r by (vm_compute; reflexivity)
    end.

(** Running a computation whose branches are decided. *)
Ltac io_run :=
  cbv beta iota zeta delta
    [bind ret raise lift st emit sleep json try_except
     parse_menu_items_simple_call as_str is_Exception];
  norm_world.

(** A query that ends with one message and no payload. *)
Ltac one_event :=
  eexists; split; [reflexivity|]; split; [reflexivity|];
  split; [ intros Hin; apply list_elem_of_singleton in Hin; discriminate
         | intros [? ?]; discriminate ].

Section Polling.

(** One status query: the request is issued, no other request is, and
    the value returned is the payload of the reply, or [None]. *)
Lemma get_job_status_run (job_id : value) (w : world) :
  exists evs,
    get_job_status job_id w
    = (Ok (default VNone (reply_payload (status_reply w job_id 0))),
       extend w (Http (job_request job_id (headers_of (session w))) :: evs))
    /\ requests_of evs = []
    /\ ~ TIMEOUT_REPORT ∈ evs
    /\ (is_Some (reply_payload (status_reply w job_id 0)) -> evs = []).
Proof.
  unfold status_reply. rewrite Nat.add_0_r.
  unfold get_job_status, try_except, bind. rewrite get_headers_run.
  unfold http.
  destruct (backend w (requests_issued w) _) as [r|k] eqn:Hb; simpl.
  - destruct (status_code r =? 200)%Z eqn:H200.
    + unfold json. destruct (resp_json r) as [v|]; simpl.
      * exists []. repeat split; set_solver.
      * norm_world. one_event.
    + destruct (status_code r =? 404)%Z eqn:H404; simpl.
      * exists []. repeat split; set_solver.
      * norm_world. one_event.
  - destruct k; simpl; norm_world; one_event.
Qed.

Lemma status_reply_extend (w : world) (evs : list event) (job_id : value) (i : nat) :
  status_reply (extend w evs) job_id i
  = status_reply w job_id (length (requests_of evs) + i).
Proof.
  unfold status_reply. rewrite requests_issued_extend. simpl.
  now rewrite Nat.add_assoc.
Qed.

(** What a non-terminal reply consists of. *)
Lemma non_terminal_inv (o : http_outcome) :
  non_terminal o = true ->
  exists d status,
    reply_payload o = Some (VDict d) /\ truthy (VDict d) = true
    /\ default (VStr (py "unknown")) (dict_lookup d (py "status")) = status
    /\ eq_str status (py "completed") = false
    /\ eq_str status (py "failed") = false
    /\ eq_str status (py "not_found") = false.
Proof.
  unfold non_terminal. destruct (reply_payload o) as [p|]; [|discriminate].
  intros H. apply andb_prop in H as [Ht H].
  destruct p; cbn [status_of] in H; try discriminate.
  exists d, (default (VStr (py "unknown")) (dict_lookup d (py "status"))).
  unfold is_terminal in H. apply negb_true_iff in H.
  apply orb_false_elim in H as [H H3]. apply orb_false_elim in H as [H1 H2].
  repeat split; assumption.
Qed.

(** One pass through the loop on a non-terminal reply: one request, and
    the loop goes on. *)
Lemma poll_loop_continue (fuel : nat) (job_id : value) (c : nat) (w : world) :
  non_terminal (status_reply w job_id 0) = true ->
  exists evs,
    poll_loop (S fuel) job_id c w = poll_loop fuel job_id (S c) (extend w evs)
    /\ length (requests_of evs) = 1%nat
    /\ ~ TIMEOUT_REPORT ∈ evs.
Proof.
  intros Hnt. apply non_terminal_inv in Hnt as (d & status & Hp & Ht & Hs & H1 & H2 & H3).
  destruct (get_job_status_run job_id w) as (evs & Hrun & _ & _ & Hnil).
  rewrite Hp in Hrun, Hnil. rewrite (Hnil (ltac:(eauto))) in Hrun. clear Hnil.
  cbn [poll_loop]. unfold bind at 1. rewrite Hrun. cbn [default from_option id].
  rewrite Ht. cbn [negb get lift]. unfold bind at 1. cbn [ret].
  rewrite Hs, H1, H2, H3.
  destruct (eq_str status (py "pending") || eq_str status (py "running")) eqn:Hpr.
  - eexists. split.
    + unfold bind, ret, sleep, emit. cbn [lift get ret]. norm_world. reflexivity.
    + split; [reflexivity|]. intros Hin.
      repeat (apply elem_of_cons in Hin as [Hin|Hin]; [discriminate|]).
      now apply elem_of_nil in Hin.
  - eexists. split.
    + unfold bind, ret, sleep, st, emit. norm_world. reflexivity.
    + split; [reflexivity|]. intros Hin.
      repeat (apply elem_of_cons in Hin as [Hin|Hin]; [discriminate|]).
      now apply elem_of_nil in Hin.
Qed.

(** [k] passes on non-terminal replies: [k] requests, no timeout report,
    and the loop goes on. *)
Lemma poll_loop_steps (k fuel : nat) (job_id : value) :
  forall (c : nat) (w : world),
    (forall i, (i < k)%nat -> non_terminal (status_reply w job_id i) = true) ->
    exists evs,
      poll_loop (k + fuel) job_id c w = poll_loop fuel job_id (k + c) (extend w evs)
      /\ length (requests_of evs) = k
      /\ ~ TIMEOUT_REPORT ∈ evs.
Proof.
  induction k as [|k IH]; intros c w Hall.
  - exists []. rewrite extend_nil. repeat split; [set_solver].
  - destruct (poll_loop_continue (k + fuel) job_id c w) as (e1 & Hrun & Hlen & Hno).
    { apply Hall. lia. }
    destruct (IH (S c) (extend w e1)) as (e2 & Hrun2 & Hlen2 & Hno2).
    { intros i Hi. rewrite status_reply_extend, Hlen. apply Hall. lia. }
    exists (e1 ++ e2). split; [|split].
    + cbn [Nat.add]. rewrite Hrun, Hrun2, extend_extend.
      now replace (k + S c)%nat with (S k + c)%nat by lia.
    + rewrite requests_of_app, length_app. lia.
    + intros Hin. apply elem_of_app in Hin as [?|?]; tauto.
Qed.

Lemma has_status_inv (payload : value) (s : text) :
  has_status payload s = true ->
  exists d, payload = VDict d
            /\ eq_str (default (VStr (py "unknown")) (dict_lookup d (py "status"))) s = true.
Proof.
  unfold has_status. destruct payload; cbn [status_of]; try discriminate. eauto.
Qed.

Lemma eq_str_true (v : value) (s : text) : eq_str v s = true -> v = VStr s.
Proof.
  destruct v; cbn [eq_str]; try discriminate.
  intros H. apply bool_decide_eq_true in H. now subst.
Qed.

(** A payload that reports one of the named statuses is not empty. *)
Lemma has_status_truthy (payload : value) (s : text) :
  s <> py "unknown" -> has_status payload s = true -> truthy payload = true.
Proof.
  intros Hne H. apply has_status_inv in H as (d & -> & H).
  destruct d; [|reflexivity].
  apply eq_str_true in H. cbn in H. injection H as H. now subst.
Qed.

(** The pass that sees [completed] returns the payload. *)
Lemma poll_loop_completed (fuel : nat) (job_id : value) (c : nat) (w : world)
    (payload : value) :
  reply_payload (status_reply w job_id 0) = Some payload ->
  has_status payload (py "completed") = true ->
  poll_loop (S fuel) job_id c w
  = (Ok payload, extend w [Http (job_request job_id (headers_of (session w)))]).
Proof.
  intros Hp Hs.
  destruct (get_job_status_run job_id w) as (evs & Hrun & _ & _ & Hnil).
  rewrite Hp in Hrun, Hnil. rewrite (Hnil (ltac:(eauto))) in Hrun. clear Hnil.
  cbn [poll_loop]. unfold bind at 1. rewrite Hrun. cbn [default from_option id].
  assert (Ht : truthy payload = true)
    by (eapply has_status_truthy; [|exact Hs]; py_neq).
  rewrite Ht. apply has_status_inv in Hs as (d & -> & Hs).
  cbn [negb get lift]. unfold bind at 1. cbn [ret]. now rewrite Hs.
Qed.

(** The pass that sees [failed] or [not_found] reports it and returns
    nothing. *)
Lemma poll_loop_stopped (fuel : nat) (job_id : value) (c : nat) (w : world)
    (payload : value) :
  reply_payload (status_reply w job_id 0) = Some payload ->
  has_status payload (py "failed") || has_status payload (py "not_found") = true ->
  exists report,
    poll_loop (S fuel) job_id c w
    = (Ok VNone, extend w [Http (job_request job_id (headers_of (session w)));
                           St st_error report]).
Proof.
  intros Hp Hs.
  destruct (get_job_status_run job_id w) as (evs & Hrun & _ & _ & Hnil).
  rewrite Hp in Hrun, Hnil. rewrite (Hnil (ltac:(eauto))) in Hrun. clear Hnil.
  cbn [poll_loop]. unfold bind at 1. rewrite Hrun. cbn [default from_option id].
  apply orb_prop in Hs as [Hs|Hs];
    (assert (Ht : truthy payload = true)
       by (eapply has_status_truthy; [|exact Hs]; py_neq));
    rewrite Ht; apply has_status_inv in Hs as (d & -> & Hs);
    cbn [negb get lift]; unfold bind at 1; cbn [ret];
    apply eq_str_true in Hs; rewrite Hs; eval_eq_str; cbv iota.
  - unfold bind at 1. cbn [lift get ret]. unfold bind, st, emit, ret.
    norm_world. eexists. reflexivity.
  - unfold bind, st, emit, ret. norm_world. eexists. reflexivity.
Qed.

(** The pass whose request brings no payload reports it and returns
    nothing. *)
Lemma poll_loop_aborted (fuel : nat) (job_id : value) (c : nat) (w : world) :
  reply_payload (status_reply w job_id 0) = None ->
  exists evs,
    poll_loop (S fuel) job_id c w
    = (Ok VNone, extend w (Http (job_request job_id (headers_of (session w))) :: evs))
    /\ requests_of evs = [].
Proof.
  intros Hp.
  destruct (get_job_status_run job_id w) as (evs & Hrun & Hreq & _ & _).
  rewrite Hp in Hrun.
  cbn [poll_loop]. unfold bind at 1. rewrite Hrun. cbn [default from_option id].
  cbn [truthy negb]. eexists. split.
  - unfold bind, st, emit, ret. norm_world. reflexivity.
  - rewrite requests_of_app, Hreq. reflexivity.
Qed.

End Polling.



(** ** The job-polling client *)

Section PollingClaims.

(** C1, as the code has it.  The claim asks that polling stops after at
    most 100 status requests with a timeout report when no reply is
    terminal.  The loop is [while True:] and never reads [max_polls]: on
    such replies it is still running after [n] passes for every [n],
    it has issued [n] requests by then, and the timeout report of lines
    418-420 is not among its messages. *)
Theorem poll_job_until_complete_never_times_out
    (n : nat) (job_id : value) (w : world) :
  (forall i, non_terminal (status_reply w job_id i) = true) ->
  exists evs,
    poll_job_until_complete n job_id w = (Running, extend w evs)
    /\ length (requests_of evs) = n
    /\ ~ TIMEOUT_REPORT ∈ evs.
Proof.
  intros Hall. unfold poll_job_until_complete.
  destruct (poll_loop_steps n 0 job_id 0 w) as (evs & Hrun & Hlen & Hno).
  { intros i _. apply Hall. }
  exists evs. rewrite Nat.add_0_r in Hrun. rewrite Hrun. auto.
Qed.

(** At a job that stays pending, the run is past its 100th request and
    has not ended. *)
Lemma poll_job_until_complete_never_times_out_witness :
  exists evs,
    poll_job_until_complete 101 Scenarios.JOB Scenarios.always_pending
    = (Running, extend Scenarios.always_pending evs)
    /\ length (requests_of evs) = 101%nat
    /\ ~ TIMEOUT_REPORT ∈ evs.
Proof.
  apply (poll_job_until_complete_never_times_out 101 Scenarios.JOB Scenarios.always_pending).
  intros i. reflexivity.
Defined.

(** C3.  When the first [k] replies are not terminal and the next one
    carries a payload whose status is [completed], polling returns that
    payload as it was received, after [k + 1] requests. *)
Theorem poll_job_until_complete_returns_completed_payload
    (k fuel : nat) (job_id : value) (w : world) (payload : value) :
  (forall i, (i < k)%nat -> non_terminal (status_reply w job_id i) = true) ->
  reply_payload (status_reply w job_id k) = Some payload ->
  has_status payload (py "completed") = true ->
  exists evs,
    poll_job_until_complete (S k + fuel) job_id w = (Ok payload, extend w evs)
    /\ length (requests_of evs) = S k.
Proof.
  intros Hall Hp Hs. unfold poll_job_until_complete.
  destruct (poll_loop_steps k (S fuel) job_id 0 w Hall) as (evs & Hrun & Hlen & _).
  replace (S k + fuel)%nat with (k + S fuel)%nat by lia.
  rewrite Hrun, (poll_loop_completed _ _ _ _ payload); [| |exact Hs].
  - rewrite extend_extend. eexists. split; [reflexivity|].
    rewrite requests_of_app, length_app, Hlen. cbn. lia.
  - rewrite status_reply_extend, Hlen, Nat.add_0_r. exact Hp.
Qed.

Lemma poll_job_until_complete_returns_completed_payload_witness :
  exists evs,
    poll_job_until_complete 5 Scenarios.JOB Scenarios.completes
    = (Ok Scenarios.DONE, extend Scenarios.completes evs)
    /\ length (requests_of evs) = 3%nat.
Proof.
  apply (poll_job_until_complete_returns_completed_payload
           2 2 Scenarios.JOB Scenarios.completes Scenarios.DONE).
  - intros i Hi. destruct i as [|[|i]]; [reflexivity|reflexivity|lia].
  - reflexivity.
  - vm_compute. reflexivity.
Defined.

(** C4.  When the first [k] replies are not terminal and the next one
    carries the status [failed] or [not_found], polling returns nothing;
    what it does from that request on is to show one error message: the
    request that brought the status is its last, whatever number of
    further passes it would have been allowed. *)
Theorem poll_job_until_complete_stops_on_failed_or_not_found
    (k fuel : nat) (job_id : value) (w : world) (payload : value) :
  (forall i, (i < k)%nat -> non_terminal (status_reply w job_id i) = true) ->
  reply_payload (status_reply w job_id k) = Some payload ->
  has_status payload (py "failed") || has_status payload (py "not_found") = true ->
  exists before report,
    poll_job_until_complete (S k + fuel) job_id w
    = (Ok VNone,
       extend w (before ++ [Http (job_request job_id (headers_of (session w)));
                            St st_error report]))
    /\ length (requests_of before) = k.
Proof.
  intros Hall Hp Hs. unfold poll_job_until_complete.
  destruct (poll_loop_steps k (S fuel) job_id 0 w Hall) as (evs & Hrun & Hlen & _).
  replace (S k + fuel)%nat with (k + S fuel)%nat by lia.
  destruct (poll_loop_stopped fuel job_id (k + 0) (extend w evs) payload)
    as (report & Hstop); [|exact Hs|].
  - rewrite status_reply_extend, Hlen, Nat.add_0_r. exact Hp.
  - exists evs, report. rewrite Hrun, Hstop, extend_extend. auto.
Qed.

Lemma poll_job_until_complete_stops_on_failed_or_not_found_witness :
  exists before report,
    poll_job_until_complete 50 Scenarios.JOB Scenarios.fails
    = (Ok VNone,
       extend Scenarios.fails
         (before ++ [Http (job_request Scenarios.JOB
                             (headers_of (session Scenarios.fails)));
                     St st_error report]))
    /\ length (requests_of before) = 1%nat.
Proof.
  apply (poll_job_until_complete_stops_on_failed_or_not_found
           1 48 Scenarios.JOB Scenarios.fails
           (VDict [(py "status", VStr (py "failed"));
                   (py "error", VStr (py "out of memory"))])).
  - intros i Hi. destruct i as [|i]; [reflexivity|lia].
  - reflexivity.
  - vm_compute. reflexivity.
Defined.

(** C9.  A status request that brings no payload (the request raised, the
    answer was neither 200 nor 404, or the body of the 200 was no JSON)
    makes [get_job_status] return [None]; polling then returns nothing
    and that request is its last: it is not tried again. *)
Theorem poll_job_until_complete_aborts_on_failed_request
    (k fuel : nat) (job_id : value) (w : world) :
  (forall i, (i < k)%nat -> non_terminal (status_reply w job_id i) = true) ->
  reply_payload (status_reply w job_id k) = None ->
  (forall w0, reply_payload (status_reply w0 job_id 0) = None ->
              (get_job_status job_id w0).1 = Ok VNone)
  /\ exists before after,
      poll_job_until_complete (S k + fuel) job_id w
      = (Ok VNone,
         extend w (before ++ Http (job_request job_id (headers_of (session w))) :: after))
      /\ length (requests_of before) = k
      /\ requests_of after = [].
Proof.
  intros Hall Hp. split.
  - intros w0 H0. destruct (get_job_status_run job_id w0) as (evs & Hrun & _).
    now rewrite Hrun, H0.
  - unfold poll_job_until_complete.
    destruct (poll_loop_steps k (S fuel) job_id 0 w Hall) as (evs & Hrun & Hlen & _).
    replace (S k + fuel)%nat with (k + S fuel)%nat by lia.
    destruct (poll_loop_aborted fuel job_id (k + 0) (extend w evs))
      as (after & Habort & Hreq).
    + rewrite status_reply_extend, Hlen, Nat.add_0_r. exact Hp.
    + exists evs, after. rewrite Hrun, Habort, extend_extend. auto.
Qed.

Lemma poll_job_until_complete_aborts_on_failed_request_witness :
  (forall w0, reply_payload (status_reply w0 Scenarios.JOB 0) = None ->
              (get_job_status Scenarios.JOB w0).1 = Ok VNone)
  /\ exists before after,
      poll_job_until_complete 100 Scenarios.JOB Scenarios.breaks
      = (Ok VNone,
         extend Scenarios.breaks
           (before ++ Http (job_request Scenarios.JOB
                              (headers_of (session Scenarios.breaks))) :: after))
      /\ length (requests_of before) = 1%nat
      /\ requests_of after = [].
Proof.
  apply (poll_job_until_complete_aborts_on_failed_request
           1 98 Scenarios.JOB Scenarios.breaks).
  - intros i Hi. destruct i as [|i]; [reflexivity|lia].
  - reflexivity.
Defined.

(** C10.  On a 404 [get_job_status] shows no message and returns the
    payload it makes up itself, whatever the body of the answer says. *)
Theorem get_job_status_not_found (job_id : value) (w : world) (r : response) :
  backend w (requests_issued w) (job_request job_id (headers_of (session w)))
  = Responds r ->
  status_code r = 404%Z ->
  get_job_status job_id w
  = (Ok (VDict [(py "status", VStr (py "not_found"));
                (py "error", VStr (py "Job not found or expired"))]),
     extend w [Http (job_request job_id (headers_of (session w)))]).
Proof.
  intros Hb H404.
  destruct (get_job_status_run job_id w) as (evs & Hrun & _ & _ & Hnil).
  unfold status_reply in Hrun, Hnil. rewrite Nat.add_0_r, Hb in Hrun, Hnil.
  cbn [reply_payload] in Hrun, Hnil. rewrite H404 in Hrun, Hnil.
  cbn in Hnil. rewrite (Hnil ltac:(eauto)) in Hrun. exact Hrun.
Qed.

Lemma get_job_status_not_found_witness :
  get_job_status Scenarios.JOB Scenarios.forgotten
  = (Ok (VDict [(py "status", VStr (py "not_found"));
                (py "error", VStr (py "Job not found or expired"))]),
     extend Scenarios.forgotten
       [Http (job_request Scenarios.JOB (headers_of (session Scenarios.forgotten)))]).
Proof.
  apply (get_job_status_not_found Scenarios.JOB Scenarios.forgotten
           {| status_code := 404; resp_text := []; resp_json := Some Scenarios.DONE |});
    reflexivity.
Defined.

End PollingClaims.

(** ** The menu-text normalizers *)

Section NormalizerFacts.
Context (U : Unicode).

Lemma fromkeys_from_spec (items seen : list text) :
  NoDup (fromkeys_from seen items)
  /\ forall x, x ∈ fromkeys_from seen items -> x ∈ items /\ x ∉ seen.
Proof.
  revert seen. induction items as [|x rest IH]; intros seen; cbn [fromkeys_from].
  - split; [constructor|]. intros x Hx. now apply elem_of_nil in Hx.
  - case_bool_decide as Hseen.
    + destruct (IH seen) as [Hnd Hin]. split; [exact Hnd|].
      intros y Hy. destruct (Hin y Hy). split; [now right|assumption].
    + destruct (IH (x :: seen)) as [Hnd Hin]. split.
      * constructor; [|exact Hnd]. intros Hx. destruct (Hin x Hx) as [_ Hn].
        apply Hn. now left.
      * intros y Hy. apply elem_of_cons in Hy as [->|Hy].
        -- split; [now left|assumption].
        -- destruct (Hin y Hy) as [H1 H2]. split; [now right|].
           intros H3. apply H2. now right.
Qed.

Lemma dict_fromkeys_NoDup (items : list text) : NoDup (dict_fromkeys items).
Proof. apply fromkeys_from_spec. Qed.

Lemma dict_fromkeys_subset (items : list text) (x : text) :
  x ∈ dict_fromkeys items -> x ∈ items.
Proof. intros H. now apply fromkeys_from_spec in H. Qed.

Lemma take_NoDup (n : nat) (l : list text) : NoDup l -> NoDup (take n l).
Proof. intros H. eapply sublist_NoDup; [exact H|apply sublist_take]. Qed.

Lemma take_subset (n : nat) (l : list text) (x : text) : x ∈ take n l -> x ∈ l.
Proof. intros H. eapply elem_of_sublist; [exact H|apply sublist_take]. Qed.

Lemma ai_rule_not_noise (line cleaned : text) :
  ai_rule U line = Some cleaned -> cleaned ∉ NOISE_HEADINGS.
Proof.
  unfold ai_rule. destruct (_ && _); [|discriminate].
  destruct (_ && _) eqn:H; [|discriminate]. intros [= <-].
  apply andb_prop in H as [H _]. apply andb_prop in H as [_ H].
  apply negb_true_iff, bool_decide_eq_false in H. exact H.
Qed.

Lemma simple_rule_not_noise (line cleaned : text) :
  simple_rule U line = Some cleaned -> cleaned ∉ NOISE_HEADINGS.
Proof.
  unfold simple_rule. destruct (_ && _); [|discriminate].
  destruct (_ && _) eqn:H; [|discriminate]. intros [= <-].
  apply andb_prop in H as [_ H].
  apply negb_true_iff, bool_decide_eq_false in H. exact H.
Qed.

Lemma extract_items_NoDup (content : text) : NoDup (extract_items U content).
Proof. apply take_NoDup, dict_fromkeys_NoDup. Qed.

Lemma parse_menu_items_simple_NoDup (content : text) :
  NoDup (parse_menu_items_simple U content).
Proof. apply take_NoDup, dict_fromkeys_NoDup. Qed.

Lemma extract_items_not_noise (content item : text) :
  item ∈ extract_items U content -> item ∉ NOISE_HEADINGS.
Proof.
  intros H. apply take_subset, dict_fromkeys_subset in H.
  apply list_elem_of_omap in H as (line & _ & H).
  eapply ai_rule_not_noise, H.
Qed.

Lemma parse_menu_items_simple_not_noise (content item : text) :
  item ∈ parse_menu_items_simple U content -> item ∉ NOISE_HEADINGS.
Proof.
  intros H. apply take_subset, dict_fromkeys_subset in H.
  apply list_elem_of_omap in H as (line & _ & H).
  eapply simple_rule_not_noise, H.
Qed.

Lemma extract_items_length (content : text) :
  (length (extract_items U content) <= 15)%nat.
Proof. unfold extract_items. rewrite length_take. lia. Qed.

Lemma parse_menu_items_simple_length (content : text) :
  (length (parse_menu_items_simple U content) <= 12)%nat.
Proof. unfold parse_menu_items_simple. rewrite length_take. lia. Qed.

(** What [extract_menu_items_from_content] does with a string: one
    request; the items of the simple parser when the call does not go
    through, those of its own rules when it does. *)
Lemma extract_menu_items_from_content_run (content : text) (w : world) :
  exists evs,
    extract_menu_items_from_content U (VStr content) w
    = (Ok (if ai_call_fails (backend w (requests_issued w) (ai_request (session w) content))
           then parse_menu_items_simple U content
           else extract_items U content),
       extend w (Http (ai_request (session w) content) :: evs))
    /\ requests_of evs = [].
Proof.
  unfold extract_menu_items_from_content, try_except, bind at 1 2 3.
  cbn [slice_check ret content_frag]. rewrite get_headers_run. unfold http, ai_request.
  destruct (backend w (requests_issued w) _) as [r|k] eqn:Hb; cbn [ai_call_fails].
  - destruct (status_code r =? 200)%Z.
    + unfold json. destruct (resp_json r) as [body|].
      * unfold getitem.
        destruct body as [|b|z|f|t|l|d]; io_run;
          try (eexists; split; reflexivity).
        destruct (dict_lookup d (py "recommendations"));
          io_run; eexists; split; reflexivity.
      * io_run; eexists; split; reflexivity.
    + io_run; eexists; split; reflexivity.
  - io_run; eexists; split; reflexivity.
Qed.

End NormalizerFacts.

(** On ASCII texts the normalizers depend on the ASCII part of the
    character tables only. *)

Section Ascii.
Context (U : Unicode) (HU : ascii_compatible U).

Lemma ascii_tables_compatible : ascii_compatible ascii_tables.
Proof. repeat split; reflexivity. Qed.

Lemma lstrip_keeps_ascii (V : Unicode) (s : text) :
  ascii_text s -> ascii_text (lstrip V s).
Proof.
  induction 1 as [|c s Hc Hs IH]; cbn [lstrip]; [constructor|].
  destruct (isspace V c); [exact IH|now constructor].
Qed.

Lemma strip_keeps_ascii (V : Unicode) (s : text) :
  ascii_text s -> ascii_text (strip V s).
Proof.
  intros H. unfold strip, rstrip.
  apply Forall_rev, lstrip_keeps_ascii, Forall_rev, lstrip_keeps_ascii, H.
Qed.

Lemma lstrip_ascii (s : text) :
  ascii_text s -> lstrip U s = lstrip ascii_tables s.
Proof.
  destruct HU as (Hsp & _).
  induction 1 as [|c s Hc Hs IH]; cbn [lstrip]; [reflexivity|].
  rewrite (Hsp c Hc). cbn [isspace ascii_tables]. now rewrite IH.
Qed.

Lemma strip_ascii (s : text) : ascii_text s -> strip U s = strip ascii_tables s.
Proof.
  intros H. unfold strip, rstrip.
  rewrite (lstrip_ascii s H), lstrip_ascii; [reflexivity|].
  apply Forall_rev, lstrip_keeps_ascii, H.
Qed.

Lemma isnumeric_ascii (s : text) :
  ascii_text s -> isnumeric U s = isnumeric ascii_tables s.
Proof.
  destruct HU as (_ & _ & Hnum & _).
  unfold isnumeric. destruct s as [|c s]; [reflexivity|].
  generalize (c :: s). induction 1 as [|a l Ha Hl IH]; cbn [forallb]; [reflexivity|].
  now rewrite (Hnum a Ha), IH.
Qed.

Lemma cc_match_ascii (cc : Re.charclass) (c : char) :
  c < 128 -> Re.cc_match U cc c = Re.cc_match ascii_tables cc c.
Proof.
  destruct HU as (Hsp & Hdec & _).
  intros Hc. destruct cc; cbn [Re.cc_match]; auto.
Qed.

Lemma star_match_ascii (cc : Re.charclass) (k k' : text -> option nat) :
  (forall s, ascii_text s -> k s = k' s) ->
  forall s, ascii_text s ->
    Re.star_match U cc k s = Re.star_match ascii_tables cc k' s.
Proof.
  intros Hk. induction 1 as [|c s Hc Hs IH]; cbn [Re.star_match].
  - apply Hk. constructor.
  - rewrite (cc_match_ascii cc c Hc), IH, (Hk (c :: s)); [reflexivity|].
    now constructor.
Qed.

Lemma re_match_ascii (re : Re.regex) (s : text) :
  ascii_text s -> Re.re_match U re s = Re.re_match ascii_tables re s.
Proof.
  revert s. induction re as [|a re IH]; intros s Hs; [reflexivity|].
  destruct a as [cc|cc|cc|]; cbn [Re.re_match].
  - destruct Hs as [|c s Hc Hs]; [reflexivity|].
    now rewrite (cc_match_ascii cc c Hc), (IH s Hs).
  - now apply star_match_ascii.
  - destruct Hs as [|c s Hc Hs]; [reflexivity|].
    rewrite (cc_match_ascii cc c Hc).
    now rewrite (star_match_ascii cc _ (Re.re_match ascii_tables re) IH s Hs).
  - now rewrite (IH s Hs).
Qed.

Lemma sub_scan_ascii (re : Re.regex) (s : text) :
  ascii_text s ->
  forall skip, Re.sub_scan U re skip s = Re.sub_scan ascii_tables re skip s.
Proof.
  induction 1 as [|c s Hc Hs IH]; intros skip; cbn [Re.sub_scan]; [reflexivity|].
  destruct skip as [|k]; [|apply IH].
  rewrite (re_match_ascii re (c :: s)) by now constructor.
  destruct (Re.re_match ascii_tables re (c :: s)) as [[|k]|]; now rewrite IH.
Qed.

Lemma sub_scan_keeps_ascii (V : Unicode) (re : Re.regex) (s : text) :
  ascii_text s -> forall skip, ascii_text (Re.sub_scan V re skip s).
Proof.
  induction 1 as [|c s Hc Hs IH]; intros skip; cbn [Re.sub_scan]; [constructor|].
  destruct skip as [|k]; [|apply IH].
  destruct (Re.re_match V re (c :: s)) as [[|k]|];
    [constructor; [exact Hc|apply IH] | apply IH | constructor; [exact Hc|apply IH]].
Qed.

Lemma sub_empty_ascii (re : Re.regex) (s : text) :
  ascii_text s -> Re.sub_empty U re s = Re.sub_empty ascii_tables re s.
Proof. intros H. now apply sub_scan_ascii. Qed.

Lemma sub_empty_keeps_ascii (V : Unicode) (re : Re.regex) (s : text) :
  ascii_text s -> ascii_text (Re.sub_empty V re s).
Proof. intros H. now apply sub_scan_keeps_ascii. Qed.

Lemma split_keeps_ascii (sep : char) (s : text) :
  ascii_text s -> Forall ascii_text (split sep s).
Proof.
  induction 1 as [|c s Hc Hs IH]; cbn [split].
  - repeat constructor.
  - destruct (c =? sep).
    + constructor; [constructor|exact IH].
    + destruct (split sep s) as [|w ws]; [repeat constructor; exact Hc|].
      apply Forall_cons in IH as [Hw Hws].
      constructor; [now constructor|exact Hws].
Qed.

Lemma replace_keeps_ascii (a b : char) (s : text) :
  b < 128 -> ascii_text s -> ascii_text (replace a b s).
Proof.
  intros Hb. induction 1 as [|c s Hc Hs IH]; cbn; [constructor|].
  constructor; [destruct (c =? a); assumption|exact IH].
Qed.

Lemma ai_rule_ascii (line : text) :
  ascii_text line -> ai_rule U line = ai_rule ascii_tables line.
Proof.
  intros H. unfold ai_rule.
  pose proof (strip_keeps_ascii ascii_tables line H) as Hl.
  rewrite (strip_ascii line H), (isnumeric_ascii _ Hl).
  pose proof (sub_empty_keeps_ascii ascii_tables Re.PRICE _ Hl) as H1.
  pose proof (sub_empty_keeps_ascii ascii_tables Re.SLASH_PRICE _ H1) as H2.
  pose proof (sub_empty_keeps_ascii ascii_tables Re.PLUS_NUMBER _ H2) as H3.
  pose proof (sub_empty_keeps_ascii ascii_tables Re.AFTER_BAR _ H3) as H4.
  rewrite (sub_empty_ascii _ _ Hl), (sub_empty_ascii _ _ H1),
    (sub_empty_ascii _ _ H2), (sub_empty_ascii _ _ H3), (strip_ascii _ H4).
  reflexivity.
Qed.

Lemma simple_rule_ascii (line : text) :
  ascii_text line -> simple_rule U line = simple_rule ascii_tables line.
Proof.
  intros H. unfold simple_rule.
  pose proof (strip_keeps_ascii ascii_tables line H) as Hl.
  rewrite (strip_ascii line H), (isnumeric_ascii _ Hl).
  pose proof (sub_empty_keeps_ascii ascii_tables Re.PRICE_TO_END _ Hl) as H1.
  pose proof (sub_empty_keeps_ascii ascii_tables Re.SLASH_TO_END _ H1) as H2.
  rewrite (sub_empty_ascii _ _ Hl), (sub_empty_ascii _ _ H1), (strip_ascii _ H2).
  reflexivity.
Qed.

Lemma omap_agree (f g : text -> option text) (l : list text) :
  Forall ascii_text l -> (forall x, ascii_text x -> f x = g x) ->
  omap f l = omap g l.
Proof.
  intros Hl Hfg. induction Hl as [|x l Hx Hl IH]; cbn; [reflexivity|].
  now rewrite (Hfg x Hx), IH.
Qed.

Lemma map_agree (f g : text -> text) (l : list text) :
  Forall ascii_text l -> (forall x, ascii_text x -> f x = g x) ->
  map f l = map g l.
Proof.
  intros Hl Hfg. induction Hl as [|x l Hx Hl IH]; cbn; [reflexivity|].
  now rewrite (Hfg x Hx), IH.
Qed.

Lemma parse_menu_items_simple_ascii (content : text) :
  ascii_text content ->
  parse_menu_items_simple U content = parse_menu_items_simple ascii_tables content.
Proof.
  intros H. unfold parse_menu_items_simple.
  now rewrite (omap_agree _ (simple_rule ascii_tables) _
                 (split_keeps_ascii LF content H) simple_rule_ascii).
Qed.

Lemma extract_items_ascii (content : text) :
  ascii_text content -> extract_items U content = extract_items ascii_tables content.
Proof.
  intros H. unfold extract_items.
  now rewrite (omap_agree _ (ai_rule ascii_tables) _
                 (split_keeps_ascii LF content H) ai_rule_ascii).
Qed.

Lemma parse_typed_menu_ascii (menu_items_input : text) :
  ascii_text menu_items_input ->
  parse_typed_menu U menu_items_input = parse_typed_menu ascii_tables menu_items_input.
Proof.
  intros H. unfold parse_typed_menu.
  rewrite (map_agree (strip U) (strip ascii_tables)); [reflexivity| |apply strip_ascii].
  apply split_keeps_ascii, replace_keeps_ascii; [reflexivity|exact H].
Qed.

End Ascii.

Section NormalizerClaims.

(** The rules at work on lines of a menu. *)
Example ai_rule_strips_prices :
  ai_rule ascii_tables (py "  Laksa 9.90 /11.90 +1 | spicy") = Some (py "Laksa  /").
Proof. vm_compute. reflexivity. Qed.

Example simple_rule_cuts_at_price :
  simple_rule ascii_tables (py "Fish and Chips 12.50 (large)") = Some (py "Fish and Chips").
Proof. vm_compute. reflexivity. Qed.

Example simple_rule_cuts_at_slash :
  simple_rule ascii_tables (py "BURGERS/MAINS") = Some (py "BURGERS").
Proof. vm_compute. reflexivity. Qed.

Example ai_rule_drops_heading :
  ai_rule ascii_tables (py "LUNCH SPECIALS") = None.
Proof. vm_compute. reflexivity. Qed.

Example py_decodes_literals :
  py "·" = [183] /\ py "a\nb" = [97; 10; 98].
Proof. split; reflexivity. Qed.

(** C2, as the claim states it, fails: both normalizers keep two items
    that differ in letter case only, since [dict.fromkeys] compares the
    items as they are.  This is so whatever the character tables are
    outside ASCII. *)
Lemma normalizers_keep_case_variants :
  parse_menu_items_simple ascii_tables Scenarios.SHOUTED_MENU
  = [py "Chicken Rice"; py "CHICKEN RICE"]
  /\ (extract_menu_items_from_content ascii_tables (VStr Scenarios.SHOUTED_MENU)
         Scenarios.helpful).1
     = Ok [py "Chicken Rice"; py "CHICKEN RICE"]
  /\ ~ (exists U, ascii_compatible U
                  /\ no_case_duplicates U
                       (parse_menu_items_simple U Scenarios.SHOUTED_MENU))
  /\ ~ (exists U items,
          ascii_compatible U
          /\ (extract_menu_items_from_content U (VStr Scenarios.SHOUTED_MENU)
                 Scenarios.helpful).1 = Ok items
          /\ no_case_duplicates U items).
Proof.
  assert (Hdup : forall U, ascii_compatible U ->
            ~ no_case_duplicates U [py "Chicken Rice"; py "CHICKEN RICE"]).
  { intros U (_ & _ & _ & Hlow) H.
    apply (H 0%nat 1%nat (py "Chicken Rice") (py "CHICKEN RICE"));
      [lia|reflexivity|reflexivity|].
    rewrite !Hlow by (vm_compute; repeat constructor).
    vm_compute. reflexivity. }
  assert (Hascii : ascii_text Scenarios.SHOUTED_MENU)
    by (vm_compute; repeat constructor).
  split; [vm_compute; reflexivity|]. split; [vm_compute; reflexivity|]. split.
  - intros (U & HU & H). apply (Hdup U HU).
    rewrite (parse_menu_items_simple_ascii U HU _ Hascii) in H.
    replace (parse_menu_items_simple ascii_tables Scenarios.SHOUTED_MENU)
      with [py "Chicken Rice"; py "CHICKEN RICE"] in H by (vm_compute; reflexivity).
    exact H.
  - intros (U & items & HU & Hrun & H). apply (Hdup U HU).
    destruct (extract_menu_items_from_content_run U Scenarios.SHOUTED_MENU
                Scenarios.helpful) as (evs & Hrun' & _).
    rewrite Hrun' in Hrun. cbn [fst] in Hrun.
    replace (ai_call_fails _) with false in Hrun by (vm_compute; reflexivity).
    rewrite (extract_items_ascii U HU _ Hascii) in Hrun.
    replace (extract_items ascii_tables Scenarios.SHOUTED_MENU)
      with [py "Chicken Rice"; py "CHICKEN RICE"] in Hrun by (vm_compute; reflexivity).
    injection Hrun as <-. exact H.
Qed.

(** C2, amended.  For every input text both normalizers return a list
    in which no item occurs twice, the items being compared as they are
    (letter case included); [extract_menu_items_from_content] does so
    whatever the backend answers. *)
Theorem normalizers_return_no_duplicates
    (U : Unicode) (content : text) (w : world) :
  NoDup (parse_menu_items_simple U content)
  /\ exists items w',
      extract_menu_items_from_content U (VStr content) w = (Ok items, w')
      /\ NoDup items.
Proof.
  split; [apply parse_menu_items_simple_NoDup|].
  destruct (extract_menu_items_from_content_run U content w) as (evs & Hrun & _).
  eexists _, _. split; [exact Hrun|].
  destruct (ai_call_fails _);
    [apply parse_menu_items_simple_NoDup|apply extract_items_NoDup].
Qed.

(** C5.  For every input text [extract_menu_items_from_content] returns
    at most 15 items and [parse_menu_items_simple] at most 12, and none
    of the items is one of the four noise headings. *)
Theorem normalizers_bound_and_drop_noise
    (U : Unicode) (content : text) (w : world) :
  ((length (parse_menu_items_simple U content) <= 12)%nat
   /\ Forall (fun item => item ∉ [py "LUNCH SPECIALS"; py "BURGERS/MAINS";
                                   py "MON-THU"; py "TILL4PM"])
             (parse_menu_items_simple U content))
  /\ exists items w',
      extract_menu_items_from_content U (VStr content) w = (Ok items, w')
      /\ (length items <= 15)%nat
      /\ Forall (fun item => item ∉ [py "LUNCH SPECIALS"; py "BURGERS/MAINS";
                                      py "MON-THU"; py "TILL4PM"]) items.
Proof.
  split.
  - split; [apply parse_menu_items_simple_length|].
    apply Forall_forall. intros item. apply parse_menu_items_simple_not_noise.
  - destruct (extract_menu_items_from_content_run U content w) as (evs & Hrun & _).
    eexists _, _. split; [exact Hrun|].
    destruct (ai_call_fails _).
    + split; [pose proof (parse_menu_items_simple_length U content); lia|].
      apply Forall_forall. intros item. apply parse_menu_items_simple_not_noise.
    + split; [apply extract_items_length|].
      apply Forall_forall. intros item. apply extract_items_not_noise.
Qed.

(** C6.  The typed-menu parser of [main] turns the text
    ["Chicken Rice\nLaksa, Kaya Toast"] into the three items
    "Chicken Rice", "Laksa" and "Kaya Toast". *)
Theorem typed_menu_example (U : Unicode) :
  ascii_compatible U ->
  parse_typed_menu U (py "Chicken Rice\nLaksa, Kaya Toast")
  = [py "Chicken Rice"; py "Laksa"; py "Kaya Toast"].
Proof.
  intros HU. rewrite (parse_typed_menu_ascii U HU).
  - vm_compute. reflexivity.
  - vm_compute. repeat constructor.
Qed.

Lemma typed_menu_example_witness :
  parse_typed_menu ascii_tables (py "Chicken Rice\nLaksa, Kaya Toast")
  = [py "Chicken Rice"; py "Laksa"; py "Kaya Toast"].
Proof.
  apply (typed_menu_example ascii_tables). repeat split; reflexivity.
Defined.

(** The pass of [main] over the extracted items (lines 693-698) is the
    one that compares up to letter case. *)
Lemma unique_options_from_spec (U : Unicode) (items seen : list text) :
  NoDup (lower U <$> unique_options_from U seen items)
  /\ forall x, x ∈ unique_options_from U seen items -> lower U x ∉ seen.
Proof.
  revert seen. induction items as [|x rest IH]; intros seen; cbn [unique_options_from].
  - split; [constructor|]. intros x Hx. now apply elem_of_nil in Hx.
  - case_bool_decide as Hseen; [apply IH|].
    destruct (IH (lower U x :: seen)) as [Hnd Hin]. split.
    + cbn. constructor; [|exact Hnd]. intros Hx.
      apply list_elem_of_fmap in Hx as (y & Hy & Hx).
      apply (Hin y Hx). rewrite Hy. now left.
    + intros y Hy. apply elem_of_cons in Hy as [->|Hy]; [assumption|].
      intros H. apply (Hin y Hy). now right.
Qed.

Lemma unique_options_no_case_duplicates (U : Unicode) (items : list text) :
  no_case_duplicates U (unique_options U items).
Proof.
  intros i j x y Hij Hx Hy Heq.
  destruct (unique_options_from_spec U items []) as [Hnd _].
  apply Hij. eapply NoDup_lookup; [exact Hnd| |].
  - rewrite list_lookup_fmap. unfold unique_options in Hx. rewrite Hx. reflexivity.
  - rewrite list_lookup_fmap. unfold unique_options in Hy. rewrite Hy. cbn.
    now rewrite Heq.
Qed.

End NormalizerClaims.


(** ** The fallback chain and the health gate *)

Section FlowClaims.

(** C8.  When the AI-assisted call of [extract_menu_items_from_content]
    does not go through (no 200, or an exception), the function returns
    what [parse_menu_items_simple] makes of the same content.  And when,
    after a job that polling saw completed, the extraction of the
    document content yields nothing, the flow selects items of the
    hard-coded list of common dishes (its first three) and issues no
    further request. *)
Theorem extraction_falls_back
    (U : Unicode) (fuel : nat) (content : text) (w : world)
    (result job_id final_result extraction_result : value)
    (file_key : text * N) (w1 w2 : world) :
  (ai_call_fails (backend w (requests_issued w) (ai_request (session w) content)) = true ->
   exists w',
     extract_menu_items_from_content U (VStr content) w
     = (Ok (parse_menu_items_simple U content), w'))
  /\ (getitem result (py "job_id") = inr job_id ->
      poll_job_until_complete fuel job_id
        (log (St st_info [FLit (py "📄 Document processing started! Job ID: ");
                          FVal job_id]) w)
      = (Ok final_result, w1) ->
      truthy final_result = true ->
      extract_menu_from_job job_id
        (log (St st_success [FLit (py "✅ Document processing completed!")]) w1)
      = (Ok extraction_result, w2) ->
      no_document_content extraction_result = true ->
      exists w3,
        process_job U fuel result file_key w = (Ok tt, w3)
        /\ selected_menu_items (session w3)
           = [VStr (py "Chicken Rice"); VStr (py "Laksa"); VStr (py "Char Kway Teow")]
        /\ requests_of (trace w3) = requests_of (trace w2)).
Proof.
  split.
  - intros Hfail.
    destruct (extract_menu_items_from_content_run U content w) as (evs & Hrun & _).
    rewrite Hfail in Hrun. eauto.
  - intros Hjob Hpoll Hfinal Hext Hnone.
    unfold process_job. rewrite Hjob.
    cbv beta iota zeta delta [bind ret lift st emit].
    rewrite Hpoll, Hfinal, Hext.
    assert (Htest : and_test extraction_result
                      (c <- lift (get extraction_result (py "document_content") VNone) ;;
                       ret (truthy c)) w2 = (Ok false, w2)).
    { unfold and_test.
      destruct extraction_result as [|b|z|f|t|l|d]; cbn [no_document_content] in Hnone;
        apply negb_true_iff in Hnone; try (rewrite Hnone; reflexivity).
      destruct (truthy (VDict d)); [|reflexivity].
      cbv beta iota zeta delta [bind ret lift get]. now rewrite Hnone. }
    cbv beta iota zeta delta [bind ret lift st emit] in Htest. rewrite Htest.
    eexists. split; [reflexivity|]. split.
    + vm_compute. reflexivity.
    + cbn [update_session with_session log trace].
      rewrite !requests_of_app. cbn. now rewrite !app_nil_r.
Qed.

Lemma extraction_falls_back_witness :
  (exists w',
     extract_menu_items_from_content ascii_tables (VStr Scenarios.SHOUTED_MENU)
       Scenarios.unreachable
     = (Ok (parse_menu_items_simple ascii_tables Scenarios.SHOUTED_MENU), w'))
  /\ (exists w3,
        process_job ascii_tables 1 Scenarios.STARTED (py "menu.pdf", 1024)
          Scenarios.extraction_breaks = (Ok tt, w3)
        /\ selected_menu_items (session w3)
           = [VStr (py "Chicken Rice"); VStr (py "Laksa"); VStr (py "Char Kway Teow")]
        /\ requests_of (trace w3)
           = requests_of
               (trace (extract_menu_from_job Scenarios.JOB
                         (log (St st_success [FLit (py "✅ Document processing completed!")])
                            (poll_job_until_complete 1 Scenarios.JOB
                               (log (St st_info
                                       [FLit (py "📄 Document processing started! Job ID: ");
                                        FVal Scenarios.JOB])
                                  Scenarios.extraction_breaks)).2)).2)).
Proof.
  pose proof (extraction_falls_back ascii_tables 1 Scenarios.SHOUTED_MENU
                Scenarios.unreachable) as Ha.
  pose proof (extraction_falls_back ascii_tables 1 Scenarios.SHOUTED_MENU
                Scenarios.extraction_breaks Scenarios.STARTED Scenarios.JOB
                Scenarios.DONE VNone (py "menu.pdf", 1024)
                (poll_job_until_complete 1 Scenarios.JOB
                   (log (St st_info
                           [FLit (py "📄 Document processing started! Job ID: ");
                            FVal Scenarios.JOB])
                      Scenarios.extraction_breaks)).2
                (extract_menu_from_job Scenarios.JOB
                   (log (St st_success [FLit (py "✅ Document processing completed!")])
                      (poll_job_until_complete 1 Scenarios.JOB
                         (log (St st_info
                                 [FLit (py "📄 Document processing started! Job ID: ");
                                  FVal Scenarios.JOB])
                            Scenarios.extraction_breaks)).2)).2) as Hb.
  split.
  - apply (Ha Scenarios.STARTED VNone VNone VNone (py "menu.pdf", 1024)
             Scenarios.unreachable Scenarios.unreachable).
    vm_compute. reflexivity.
  - apply Hb; vm_compute; reflexivity.
Defined.

(** A health check whose probes fail: it returns [False]; it has sent
    the probe of [/health], and that of [/] when the first was answered. *)
Lemma check_backend_health_fails (w : world) :
  health_fails w ->
  exists probes,
    (probes = [HEALTH] \/ probes = [HEALTH; ROOT])
    /\ check_backend_health w = (Ok false, extend w (Http <$> probes)).
Proof.
  intros [Hh Hr]. unfold check_backend_health, try_except, bind at 1, http at 1.
  destruct (backend w (requests_issued w) HEALTH) as [r|k] eqn:Hb.
  - cbn [probe_fails] in Hh. apply negb_true_iff in Hh. rewrite Hh.
    unfold bind, http. rewrite log_extend, requests_issued_extend.
    cbn [requests_of omap length extend backend]. rewrite Nat.add_1_r.
    exists [HEALTH; ROOT]. split; [now right|].
    destruct (backend w (S (requests_issued w)) ROOT) as [r'|k'].
    + cbn [probe_fails] in Hr. apply negb_true_iff in Hr.
      cbv beta iota zeta delta [ret]. rewrite Hr. norm_world. reflexivity.
    + cbv beta iota zeta delta [ret]. norm_world. reflexivity.
  - exists [HEALTH]. split; [now left|]. cbv beta iota zeta delta [ret].
    norm_world. reflexivity.
Qed.

(** C7.  When the probe of [/health] and the fallback probe of [/] both
    fail, [check_backend_health] returns [False]; [main] then returns at
    its first check, and the part of [main] behind the sidebar stops at
    its own check (lines 569-571).  In both the probes are the only
    requests issued, so that no request for a menu analysis is. *)
Theorem unreachable_backend_halts_main
    (U : Unicode) (fuel : nat) (inp : inputs) (w : world) :
  health_fails w ->
  exists probes,
    (probes = [HEALTH] \/ probes = [HEALTH; ROOT])
    /\ check_backend_health w = (Ok false, extend w (Http <$> probes))
    /\ (exists messages,
          main U fuel inp w = (Ok tt, extend w ((Http <$> probes) ++ messages))
          /\ requests_of messages = [])
    /\ main_content U fuel inp w = (Raise StopException, extend w (Http <$> probes))
    /\ Forall (fun r => req_path r <> ANALYZE_MENU_PATH) probes.
Proof.
  intros Hf. destruct (check_backend_health_fails w Hf) as (probes & Hp & Hrun).
  exists probes. split; [exact Hp|]. split; [exact Hrun|]. split; [|split].
  - unfold main, bind at 1. rewrite Hrun.
    cbv beta iota zeta delta [bind ret st emit]. norm_world.
    eexists. split; reflexivity.
  - unfold main_content, bind at 1. rewrite Hrun. reflexivity.
  - destruct Hp as [->| ->]; repeat constructor; py_neq.
Qed.

Lemma unreachable_backend_halts_main_witness :
  exists probes,
    (probes = [HEALTH] \/ probes = [HEALTH; ROOT])
    /\ check_backend_health Scenarios.unreachable
       = (Ok false, extend Scenarios.unreachable (Http <$> probes))
    /\ (exists messages,
          main ascii_tables 100 Scenarios.analysis_request Scenarios.unreachable
          = (Ok tt, extend Scenarios.unreachable ((Http <$> probes) ++ messages))
          /\ requests_of messages = [])
    /\ main_content ascii_tables 100 Scenarios.analysis_request Scenarios.unreachable
       = (Raise StopException, extend Scenarios.unreachable (Http <$> probes))
    /\ Forall (fun r => req_path r <> ANALYZE_MENU_PATH) probes.
Proof.
  apply (unreachable_backend_halts_main ascii_tables 100 Scenarios.analysis_request
           Scenarios.unreachable).
  split; reflexivity.
Defined.

End FlowClaims.


(** * Further properties of the code *)

(** The calls that return the body of the answer. *)
Ltac call_run :=
  cbv beta iota zeta delta
    [bind ret raise lift st emit json try_except is_Exception is_Timeout
     is_ConnectionError body_of recommendations_of getitem
     default from_option id];
  norm_world.

Ltac call_cases :=
  repeat (call_run;
          match goal with
          | |- context [backend ?w ?n ?r] =>
              let k := fresh "k" in destruct (backend w n r) as [?|k]; [|destruct k]
          | |- context [(status_code ?r =? ?c)%Z] => destruct (status_code r =? c)%Z
          | |- context [resp_json ?r] => destruct (resp_json r) as [[| | | | | |?]|]
          | |- context [dict_lookup ?d ?k] => destruct (dict_lookup d k)
          end);
  call_run; eexists; (split; [reflexivity|eauto]).

(** ** The helper functions *)

Section Helpers.

(** A health check never raises.  It sends the probe of [/health], and
    the probe of [/] exactly when [/health] was answered with a status
    other than 200; it returns [True] exactly when one of the probes it
    sent was answered with 200. *)
Theorem check_backend_health_verdict (w : world) :
  exists healthy probes,
    check_backend_health w = (Ok healthy, extend w (Http <$> probes))
    /\ probes = (if answers_other (backend w (requests_issued w) HEALTH)
                 then [HEALTH; ROOT] else [HEALTH])
    /\ healthy = (answers_200 (backend w (requests_issued w) HEALTH)
                  || (answers_other (backend w (requests_issued w) HEALTH)
                      && answers_200 (backend w (S (requests_issued w)) ROOT))).
Proof.
  unfold check_backend_health, try_except, bind at 1, http at 1.
  destruct (backend w (requests_issued w) HEALTH) as [r|k] eqn:Hb;
    cbn [answers_200 answers_other].
  - destruct (status_code r =? 200)%Z; cbn [negb orb andb].
    + eexists _, _. split; [|split; reflexivity].
      cbv beta iota zeta delta [ret]. norm_world. reflexivity.
    + unfold bind, http. rewrite log_extend, requests_issued_extend.
      cbn [requests_of omap length extend backend]. rewrite Nat.add_1_r.
      eexists _, _. split; [|split; reflexivity].
      destruct (backend w (S (requests_issued w)) ROOT) as [r'|k'];
        cbv beta iota zeta delta [ret answers_200]; norm_world; reflexivity.
  - eexists _, _. split; [|split; reflexivity].
    cbv beta iota zeta delta [ret]. norm_world. reflexivity.
Qed.

(** When the probe of [/health] raises, the fallback probe of [/] is not
    sent: the check returns [False] after one request, whatever [/]
    would have answered. *)
Theorem check_backend_health_no_fallback_after_exception
    (w : world) (k : net_error) :
  backend w (requests_issued w) HEALTH = Fails k ->
  check_backend_health w = (Ok false, extend w [Http HEALTH]).
Proof.
  intros Hb. destruct (check_backend_health_verdict w) as (b & probes & Hrun & -> & ->).
  rewrite Hrun, Hb. reflexivity.
Qed.

Lemma check_backend_health_no_fallback_after_exception_witness :
  check_backend_health Scenarios.hiccup
  = (Ok false, extend Scenarios.hiccup [Http HEALTH])
  /\ answers_200 (backend Scenarios.hiccup 1%nat ROOT) = true.
Proof.
  split; [|reflexivity].
  apply (check_backend_health_no_fallback_after_exception Scenarios.hiccup ReadTimeout).
  reflexivity.
Defined.

(** The key [test_api_key] tries: the one it is given, or else the one
    of the session. *)
Lemma test_api_key_without_key (key : option text) (w : world) :
  api_key (session w) = [] ->
  key = None \/ key = Some [] ->
  test_api_key key w = (Ok (false, inr [FLit (py "No API key provided")]), w).
Proof.
  intros Hs Hk. unfold test_api_key, bind, get_session. rewrite Hs.
  destruct Hk as [-> | ->]; reflexivity.
Qed.

(** With a key to try, [test_api_key] never raises: it sends one request
    to [/api-info] that carries that key as bearer (the key given, and
    the key of the session only when none is given), and reports the key
    as working exactly when the answer is a 200. *)
Theorem test_api_key_verdict (key : option text) (w : world) (test_key : text) :
  test_key = match key with
             | Some k => if nonempty k then k else api_key (session w)
             | None => api_key (session w)
             end ->
  nonempty test_key = true ->
  exists info,
    test_api_key key w
    = (Ok (answers_200 (backend w (requests_issued w) (api_info_request test_key)), info),
       extend w [Http (api_info_request test_key)]).
Proof.
  intros Hk Hne. unfold test_api_key, bind at 1, get_session.
  assert (Hgate : negb match key with Some k => nonempty k | None => false end
                  && negb (nonempty (api_key (session w))) = false).
  { destruct key as [k|]; [destruct (nonempty k) eqn:E|]; cbn [negb andb];
      [reflexivity|subst test_key; now rewrite Hne|subst test_key; now rewrite Hne]. }
  rewrite Hgate.
  assert (Hkey : (if match key with Some k => nonempty k | None => false end
                  then default [] key else api_key (session w)) = test_key).
  { destruct key as [k|]; [destruct (nonempty k)|]; now subst. }
  rewrite Hkey. fold (api_info_request test_key).
  unfold try_except, bind, http.
  destruct (backend w (requests_issued w) (api_info_request test_key)) as [r|k];
    cbn [answers_200]; cbv beta iota zeta delta [ret is_Exception];
    norm_world; eexists; reflexivity.
Qed.

Lemma test_api_key_verdict_witness :
  exists info,
    test_api_key (Some (py "fai_new")) Scenarios.signed_in
    = (Ok (answers_200 (backend Scenarios.signed_in
                          (requests_issued Scenarios.signed_in)
                          (api_info_request (py "fai_new"))), info),
       extend Scenarios.signed_in [Http (api_info_request (py "fai_new"))]).
Proof.
  apply (test_api_key_verdict (Some (py "fai_new")) Scenarios.signed_in (py "fai_new"));
    reflexivity.
Defined.

Lemma test_api_key_without_key_witness :
  test_api_key (Some []) Scenarios.helpful
  = (Ok (false, inr [FLit (py "No API key provided")]), Scenarios.helpful).
Proof.
  apply (test_api_key_without_key (Some []) Scenarios.helpful); [reflexivity|now right].
Defined.

(** [analyze_menu_api] never raises and sends one request, the POST to
    [/analyze-menu] with the four fields.  It returns the decoded body
    of a 200 answer without showing anything; in every other case it
    shows one error message and returns [None]. *)
Theorem analyze_menu_api_outcome
    (menu_items dietary_preferences health_conditions : list text)
    (age_group : text) (w : world) :
  let req := analyze_request (session w) menu_items dietary_preferences
               health_conditions age_group in
  let o := backend w (requests_issued w) req in
  exists evs,
    analyze_menu_api menu_items dietary_preferences health_conditions age_group w
    = (Ok (default VNone (body_of o)), extend w (Http req :: evs))
    /\ match body_of o with
       | Some _ => evs = []
       | None => exists msg, evs = [St st_error msg]
       end.
Proof.
  intros req o. subst o req.
  unfold analyze_menu_api, try_except, bind at 1 2.
  rewrite get_headers_run. unfold http, analyze_request.
  call_cases.
Qed.

(** [start_document_processing_job] never raises and sends one request.
    It returns the decoded body of a 200 answer; in every other case it
    shows one error message and returns [None]. *)
Theorem start_document_processing_job_outcome (file_path : text) (w : world) :
  let req := start_request (session w) file_path in
  let o := backend w (requests_issued w) req in
  exists evs,
    start_document_processing_job file_path w
    = (Ok (default VNone (body_of o)), extend w (Http req :: evs))
    /\ match body_of o with
       | Some _ => evs = []
       | None => exists msg, evs = [St st_error msg]
       end.
Proof.
  intros req o. subst o req.
  unfold start_document_processing_job, try_except, bind at 1 2.
  rewrite get_headers_run. unfold http, start_request.
  call_cases.
Qed.

(** [get_food_recommendations_api] never raises and sends one request.
    It returns the entry ["recommendations"] of the body of a 200
    answer; when the answer is no 200, or its body is no dictionary or
    has no such entry, it shows one error message and returns [None]. *)
Theorem get_food_recommendations_api_outcome (query : text) (w : world) :
  let req := recommendations_request (session w) query in
  let o := backend w (requests_issued w) req in
  exists evs,
    get_food_recommendations_api query w
    = (Ok (default VNone (recommendations_of o)), extend w (Http req :: evs))
    /\ match recommendations_of o with
       | Some _ => evs = []
       | None => exists msg, evs = [St st_error msg]
       end.
Proof.
  intros req o. subst o req.
  unfold get_food_recommendations_api, try_except, bind at 1 2.
  rewrite get_headers_run. unfold http, recommendations_request.
  call_cases.
Qed.

(** [extract_menu_from_job] never raises and sends one request.  It
    returns the decoded body of a 200 answer; in every other case, a 404
    included, it shows one message and returns [None]: unlike
    [get_job_status] it makes up no payload for a job that is gone. *)
Theorem extract_menu_from_job_outcome (job_id : value) (w : world) :
  let req := extract_menu_request (session w) job_id in
  let o := backend w (requests_issued w) req in
  exists evs,
    extract_menu_from_job job_id w
    = (Ok (default VNone (body_of o)), extend w (Http req :: evs))
    /\ match body_of o with
       | Some _ => evs = []
       | None => exists kind msg, evs = [St kind msg]
       end.
Proof.
  intros req o. subst o req.
  unfold extract_menu_from_job, try_except, bind at 1 2.
  rewrite get_headers_run. unfold http, extract_menu_request.
  call_cases.
Qed.

End Helpers.

(** ** The polling loop, for every backend *)

Section PollingFrame.

Lemma sleeps_of_app (t1 t2 : list event) :
  sleeps_of (t1 ++ t2) = sleeps_of t1 ++ sleeps_of t2.
Proof. unfold sleeps_of. apply omap_app. Qed.

(** A status query shows at most one message. *)
Lemma get_job_status_messages (job_id : value) (w : world) :
  exists evs,
    get_job_status job_id w
    = (Ok (default VNone (reply_payload (status_reply w job_id 0))),
       extend w (Http (job_request job_id (headers_of (session w))) :: evs))
    /\ (evs = [] \/ exists kind msg, evs = [St kind msg]).
Proof.
  unfold status_reply. rewrite Nat.add_0_r.
  unfold get_job_status, try_except, bind at 1 2. rewrite get_headers_run.
  unfold http.
  destruct (backend w (requests_issued w) _) as [r|k]; cbn [reply_payload].
  - call_run. destruct (status_code r =? 200)%Z.
    + destruct (resp_json r); call_run; eexists; (split; [reflexivity|eauto]).
    + destruct (status_code r =? 404)%Z; call_run;
        eexists; (split; [reflexivity|eauto]).
  - destruct k; call_run; eexists; (split; [reflexivity|eauto]).
Qed.

(** The loop as a whole, followed for [fuel] passes against any backend. *)
Lemma poll_loop_run (job_id : value) (fuel : nat) :
  forall (c : nat) (w : world),
  exists r evs n,
    poll_loop fuel job_id c w = (r, extend w evs)
    /\ requests_of evs = repeat (job_request job_id (headers_of (session w))) n
    /\ sleeps_of evs = repeat 8%nat (passes_slept r n)
    /\ (n <= fuel)%nat
    /\ (r = Running -> n = fuel)
    /\ (r <> Running -> (1 <= n)%nat)
    /\ (forall v, r = Ok v -> v = VNone \/ has_status v (py "completed") = true)
    /\ (forall e, r = Raise e -> e = AttributeError).
Proof.
  induction fuel as [|fuel IH]; intros c w.
  - exists Running, [], 0%nat. cbn [poll_loop]. rewrite extend_nil.
    repeat split; try reflexivity; try discriminate; congruence.
  - destruct (get_job_status_messages job_id w) as (evs0 & Hrun & Hev0).
    assert (Hq : requests_of evs0 = [] /\ sleeps_of evs0 = [])
      by (destruct Hev0 as [->|(kind & msg & ->)]; split; reflexivity).
    destruct Hq as [Hq0 Hs0]. clear Hev0.
    cbn [poll_loop]. unfold bind at 1. rewrite Hrun.
    set (req := job_request job_id (headers_of (session w))) in *.
    generalize (default VNone (reply_payload (status_reply w job_id 0))).
    intros status_data.
    remember (extend w (Http req :: evs0)) as w1 eqn:Hw1.
    (* the loop ends in this pass *)
    assert (Hend : forall (r : result value) (tail : list event),
               r <> Running -> requests_of tail = [] -> sleeps_of tail = [] ->
               (forall v, r = Ok v -> v = VNone \/ has_status v (py "completed") = true) ->
               (forall e, r = Raise e -> e = AttributeError) ->
               exists r' evs n,
                 (r, extend w1 tail) = (r', extend w evs)
                 /\ requests_of evs = repeat req n
                 /\ sleeps_of evs = repeat 8%nat (passes_slept r' n)
                 /\ (n <= S fuel)%nat
                 /\ (r' = Running -> n = S fuel)
                 /\ (r' <> Running -> (1 <= n)%nat)
                 /\ (forall v, r' = Ok v -> v = VNone \/ has_status v (py "completed") = true)
                 /\ (forall e, r' = Raise e -> e = AttributeError)).
    { intros r tail Hr Hq Hs Hv He. exists r, (Http req :: evs0 ++ tail), 1%nat.
      split; [subst w1; rewrite extend_extend; reflexivity|]. split.
      { change (Http req :: evs0 ++ tail) with ([Http req] ++ evs0 ++ tail).
        rewrite !requests_of_app, Hq0, Hq. reflexivity. }
      split.
      { change (Http req :: evs0 ++ tail) with ([Http req] ++ evs0 ++ tail).
        rewrite !sleeps_of_app, Hs0, Hs. destruct r; [reflexivity|reflexivity|congruence]. }
      repeat split; try assumption; try lia. intros; congruence. }
    (* the loop goes on after a sleep *)
    assert (Hnext : forall (msgs : list event),
               requests_of msgs = [] -> sleeps_of msgs = [] ->
               exists r' evs n,
                 poll_loop fuel job_id (S c) (extend w1 (msgs ++ [Sleep 8]))
                 = (r', extend w evs)
                 /\ requests_of evs = repeat req n
                 /\ sleeps_of evs = repeat 8%nat (passes_slept r' n)
                 /\ (n <= S fuel)%nat
                 /\ (r' = Running -> n = S fuel)
                 /\ (r' <> Running -> (1 <= n)%nat)
                 /\ (forall v, r' = Ok v -> v = VNone \/ has_status v (py "completed") = true)
                 /\ (forall e, r' = Raise e -> e = AttributeError)).
    { intros msgs Hq Hs. subst w1. rewrite extend_extend.
      destruct (IH (S c) (extend w ((Http req :: evs0) ++ msgs ++ [Sleep 8])))
        as (r & evs & n & Hrun' & Hreq & Hsl & Hle & Hrunning & Hone & Hv & He).
      cbn [extend session] in Hreq. fold req in Hreq.
      rewrite extend_extend in Hrun'.
      exists r, (((Http req :: evs0) ++ msgs ++ [Sleep 8]) ++ evs), (S n).
      split; [exact Hrun'|]. split.
      { change (Http req :: evs0) with ([Http req] ++ evs0).
        rewrite !requests_of_app, Hq0, Hq, Hreq. reflexivity. }
      split.
      { change (Http req :: evs0) with ([Http req] ++ evs0).
        rewrite !sleeps_of_app, Hs0, Hs, Hsl. cbn [sleeps_of omap app].
        destruct r; cbn [passes_slept pred]; try reflexivity.
        - assert (1 <= n)%nat by (apply Hone; discriminate).
          destruct n; [lia|reflexivity].
        - assert (1 <= n)%nat by (apply Hone; discriminate).
          destruct n; [lia|reflexivity]. }
      repeat split; try assumption; try lia.
      intros Hr. rewrite (Hrunning Hr). reflexivity. }
    clear Hw1 Hrun IH.
    destruct (truthy status_data) eqn:Ht; cbn [negb].
    + destruct status_data as [|b|z|f|t|l|d];
        try (cbv beta iota zeta delta [bind lift get raise];
             rewrite <- (extend_nil w1);
             apply (Hend (Raise AttributeError) []);
             [discriminate|reflexivity|reflexivity|discriminate|congruence]).
      cbn [get lift]. unfold bind at 1. cbn [ret].
        set (status := default (VStr (py "unknown")) (dict_lookup d (py "status"))).
        destruct (eq_str status (py "completed")) eqn:Hc.
        { rewrite <- (extend_nil w1). apply (Hend (Ok (VDict d)) []);
            [discriminate|reflexivity|reflexivity| |discriminate].
          intros v [= <-]. right. unfold has_status. cbn [status_of]. exact Hc. }
        destruct (eq_str status (py "failed")).
        { cbv beta iota zeta delta [bind lift get ret st emit]. norm_world.
          eapply (Hend (Ok VNone) [_]);
            [discriminate|reflexivity|reflexivity|intros v [= <-]; now left|discriminate]. }
        destruct (eq_str status (py "not_found")).
        { cbv beta iota zeta delta [bind lift get ret st emit]. norm_world.
          eapply (Hend (Ok VNone) [_]);
            [discriminate|reflexivity|reflexivity|intros v [= <-]; now left|discriminate]. }
        destruct (eq_str status (py "pending") || eq_str status (py "running")).
        { cbv beta iota zeta delta [bind lift get ret st emit sleep]. norm_world.
          apply (Hnext []); reflexivity. }
        { cbv beta iota zeta delta [bind lift get ret st emit sleep]. norm_world.
          eapply (Hnext [_]); reflexivity. }
    + cbv beta iota zeta delta [bind ret st emit]. norm_world.
      eapply (Hend (Ok VNone) [_]);
        [discriminate|reflexivity|reflexivity|intros v [= <-]; now left|discriminate].
Qed.

(** Whatever the backend answers, polling talks to the status endpoint
    of its job only: followed for [fuel] passes it has issued at most
    [fuel] requests, each the GET of [/jobs/<job_id>] with the headers of
    the session and a timeout of 10 seconds, and it has left the session
    as it was. *)
Theorem poll_job_until_complete_only_queries_status
    (fuel : nat) (job_id : value) (w : world) :
  exists r evs n,
    poll_job_until_complete fuel job_id w = (r, extend w evs)
    /\ requests_of evs = repeat (job_request job_id (headers_of (session w))) n
    /\ (n <= fuel)%nat.
Proof.
  destruct (poll_loop_run job_id fuel 0 w) as (r & evs & n & Hrun & Hreq & _ & Hle & _).
  exists r, evs, n. auto.
Qed.

(** Polling sleeps 8 seconds after every pass that does not end it, and
    at no other time: a run that has ended after [n] requests has slept
    [n - 1] times, a run that is still going after [n] requests [n]
    times. *)
Theorem poll_job_until_complete_pacing (fuel : nat) (job_id : value) (w : world) :
  exists r evs,
    poll_job_until_complete fuel job_id w = (r, extend w evs)
    /\ sleeps_of evs = repeat 8%nat (passes_slept r (length (requests_of evs))).
Proof.
  destruct (poll_loop_run job_id fuel 0 w) as (r & evs & n & Hrun & Hreq & Hsl & _).
  exists r, evs. split; [exact Hrun|]. now rewrite Hreq, repeat_length.
Qed.

(** What polling returns is [None] or a payload whose status is
    [completed], whatever the backend answers; so the test
    [if final_result:] of [main] passes for completed jobs only. *)
Theorem poll_job_until_complete_result
    (fuel : nat) (job_id : value) (w w' : world) (v : value) :
  poll_job_until_complete fuel job_id w = (Ok v, w') ->
  v = VNone \/ has_status v (py "completed") = true.
Proof.
  intros H.
  destruct (poll_loop_run job_id fuel 0 w) as (r & evs & n & Hrun & _ & _ & _ & _ & _ & Hv & _).
  unfold poll_job_until_complete in H. rewrite Hrun in H.
  injection H as -> _. now apply Hv.
Qed.

Lemma poll_job_until_complete_result_witness :
  Scenarios.DONE = VNone \/ has_status Scenarios.DONE (py "completed") = true.
Proof.
  apply (poll_job_until_complete_result 5 Scenarios.JOB Scenarios.completes
           (poll_job_until_complete 5 Scenarios.JOB Scenarios.completes).2
           Scenarios.DONE).
  vm_compute. reflexivity.
Defined.

(** A status payload that is no dictionary and not empty (a list, a
    string, a number, [true]) has no [get]: the pass that receives it
    raises [AttributeError], which nothing in [main] catches. *)
Theorem poll_job_until_complete_raises_on_odd_payload
    (k fuel : nat) (job_id : value) (w : world) (payload : value) :
  (forall i, (i < k)%nat -> non_terminal (status_reply w job_id i) = true) ->
  reply_payload (status_reply w job_id k) = Some payload ->
  truthy payload = true ->
  status_of payload = None ->
  exists evs,
    poll_job_until_complete (S k + fuel) job_id w = (Raise AttributeError, extend w evs)
    /\ length (requests_of evs) = S k.
Proof.
  intros Hall Hp Ht Hs. unfold poll_job_until_complete.
  destruct (poll_loop_steps k (S fuel) job_id 0 w Hall) as (evs & Hrun & Hlen & _).
  replace (S k + fuel)%nat with (k + S fuel)%nat by lia. rewrite Hrun.
  destruct (get_job_status_run job_id (extend w evs)) as (e0 & Hq & _ & _ & Hnil).
  rewrite status_reply_extend, Hlen, Nat.add_0_r, Hp in Hq, Hnil.
  rewrite (Hnil ltac:(eauto)) in Hq. clear Hnil.
  cbn [poll_loop]. unfold bind at 1. rewrite Hq. cbn [default from_option id].
  rewrite Ht. cbn [negb].
  destruct payload as [|b|z|f|t|l|d]; try discriminate Hs;
    cbv beta iota zeta delta [bind lift get raise];
    rewrite extend_extend;
    (eexists; split; [reflexivity|]);
    rewrite requests_of_app, length_app, Hlen; cbn; lia.
Qed.

Lemma poll_job_until_complete_raises_on_odd_payload_witness :
  exists evs,
    poll_job_until_complete 9 Scenarios.JOB Scenarios.garbled
    = (Raise AttributeError, extend Scenarios.garbled evs)
    /\ length (requests_of evs) = 2%nat.
Proof.
  apply (poll_job_until_complete_raises_on_odd_payload 1 7 Scenarios.JOB
           Scenarios.garbled (VList [VStr (py "completed")])).
  - intros i Hi. destruct i as [|i]; [reflexivity|lia].
  - reflexivity.
  - reflexivity.
  - reflexivity.
Defined.

End PollingFrame.

(** ** The shape of the items *)

Section ItemShape.
Context (U : Unicode).

Lemma last_rev (s : text) : last (rev s) = head s.
Proof. destruct s as [|c s]; [reflexivity|]. cbn [rev head]. apply last_snoc. Qed.

Lemma head_rev (s : text) : head (rev s) = last s.
Proof. rewrite <- (rev_involutive s) at 2. now rewrite last_rev. Qed.

Lemma lstrip_head (s : text) (c : char) :
  head (lstrip U s) = Some c -> isspace U c = false.
Proof.
  induction s as [|a s IH]; cbn [lstrip]; [discriminate|].
  destruct (isspace U a) eqn:E; [exact IH|]. intros [= <-]. exact E.
Qed.

Lemma lstrip_suffix (s : text) : exists p, s = p ++ lstrip U s.
Proof.
  induction s as [|a s [p IH]]; cbn [lstrip]; [now exists []|].
  destruct (isspace U a); [|now exists []].
  exists (a :: p). cbn. now rewrite <- IH.
Qed.

Lemma rstrip_prefix (s : text) : exists q, s = rstrip U s ++ q.
Proof.
  unfold rstrip. destruct (lstrip_suffix (rev s)) as [p Hp].
  exists (rev p). rewrite <- rev_app_distr, <- Hp. now rewrite rev_involutive.
Qed.

Lemma strip_stripped (s : text) : stripped U (strip U s).
Proof.
  unfold strip. split; intros c Hc.
  - apply (lstrip_head s). destruct (rstrip_prefix (lstrip U s)) as [q Hq].
    rewrite Hq. destruct (rstrip U (lstrip U s)); [discriminate|exact Hc].
  - unfold rstrip in Hc. rewrite last_rev in Hc. eapply lstrip_head, Hc.
Qed.

Lemma lstrip_elem (s : text) (c : char) : c ∈ lstrip U s -> c ∈ s.
Proof.
  intros H. destruct (lstrip_suffix s) as [p Hp]. rewrite Hp.
  apply elem_of_app. now right.
Qed.

Lemma rstrip_elem (s : text) (c : char) : c ∈ rstrip U s -> c ∈ s.
Proof.
  intros H. destruct (rstrip_prefix s) as [q Hq]. rewrite Hq.
  apply elem_of_app. now left.
Qed.

Lemma strip_elem (s : text) (c : char) : c ∈ strip U s -> c ∈ s.
Proof. intros H. now apply lstrip_elem, rstrip_elem. Qed.

Lemma sub_scan_elem (re : Re.regex) (s : text) (c : char) :
  forall skip, c ∈ Re.sub_scan U re skip s -> c ∈ s.
Proof.
  induction s as [|a s IH]; intros skip; cbn [Re.sub_scan].
  - intros H. now apply elem_of_nil in H.
  - destruct skip as [|k]; [|intros H; right; eapply IH, H].
    destruct (Re.re_match U re (a :: s)) as [[|k]|]; intros H.
    + apply elem_of_cons in H as [->|H]; [now left|right; eapply IH, H].
    + right. eapply IH, H.
    + apply elem_of_cons in H as [->|H]; [now left|right; eapply IH, H].
Qed.

Lemma sub_empty_elem (re : Re.regex) (s : text) (c : char) :
  c ∈ Re.sub_empty U re s -> c ∈ s.
Proof. apply sub_scan_elem. Qed.

(** The pieces of a split hold no separator. *)
Lemma split_no_separator (sep : char) (s : text) :
  Forall (fun piece => sep ∉ piece) (split sep s).
Proof.
  induction s as [|c s IH]; cbn [split].
  - constructor; [|constructor]. intros H. now apply elem_of_nil in H.
  - destruct (c =? sep) eqn:E.
    + constructor; [|exact IH]. intros H. now apply elem_of_nil in H.
    + destruct (split sep s) as [|w ws]; [repeat constructor|].
      * intros H. apply list_elem_of_singleton in H. subst.
        now rewrite N.eqb_refl in E.
      * apply Forall_cons in IH as [Hw Hws]. constructor; [|exact Hws].
        intros H. apply elem_of_cons in H as [->|H]; [|tauto].
        now rewrite N.eqb_refl in E.
Qed.

(** [.*] takes a whole line. *)
Lemma star_dot_takes_all (k : text -> option nat) (s : text) :
  (LF ∉ s) -> k [] = Some 0%nat -> Re.star_match U Re.Dot k s = Some (length s).
Proof.
  intros Hs Hk. induction s as [|c s IH]; cbn [Re.star_match]; [exact Hk|].
  assert (Hc : Re.cc_match U Re.Dot c = true).
  { cbn. apply negb_true_iff, N.eqb_neq. intros ->. apply Hs. now left. }
  rewrite Hc, IH; [reflexivity|]. intros H. apply Hs. now right.
Qed.

Lemma sub_scan_skips (re : Re.regex) (s : text) :
  forall skip, (length s <= skip)%nat -> Re.sub_scan U re skip s = [].
Proof.
  induction s as [|c s IH]; intros skip H; cbn [Re.sub_scan]; [reflexivity|].
  destruct skip as [|k]; [cbn in H; lia|]. apply IH. cbn in H. lia.
Qed.

(** A pattern that starts with the character [a] and then takes the rest
    of the line leaves no [a] in a line. *)
Lemma sub_empty_cuts (a : char) (rest : Re.regex) (s : text) :
  Re.re_match U rest [] = Some 0%nat ->
  (LF ∉ s) ->
  a ∉ Re.sub_empty U (Re.One (Re.Lit a) :: Re.Star Re.Dot :: rest) s.
Proof.
  intros Hrest. unfold Re.sub_empty.
  induction s as [|c s IH]; intros Hs; cbn [Re.sub_scan].
  - intros H. now apply elem_of_nil in H.
  - assert (Hs' : (LF ∉ s)) by (intros H; apply Hs; now right).
    cbn [Re.re_match Re.cc_match]. destruct (c =? a) eqn:E.
    + rewrite (star_dot_takes_all _ s Hs' Hrest). cbn [fmap option_fmap option_map].
      rewrite sub_scan_skips by lia. intros H. now apply elem_of_nil in H.
    + intros H. apply elem_of_cons in H as [->|H]; [|now apply IH].
      now rewrite N.eqb_refl in E.
Qed.

(** What [simple_rule] lets through. *)
Lemma simple_rule_shape (line cleaned : text) :
  (LF ∉ line) ->
  simple_rule U line = Some cleaned ->
  (3 < length cleaned)%nat /\ stripped U cleaned /\ (LF ∉ cleaned) /\ (SLASH ∉ cleaned).
Proof.
  intros Hlf. unfold simple_rule. destruct (_ && _); [|discriminate].
  destruct (_ && _) eqn:H; [|discriminate]. intros [= <-].
  apply andb_prop in H as [Hlen _]. apply Nat.ltb_lt in Hlen.
  split; [exact Hlen|]. split; [apply strip_stripped|].
  assert (H1 : LF ∉ Re.sub_empty U Re.PRICE_TO_END (strip U line)).
  { intros H. apply Hlf. eapply strip_elem, sub_empty_elem, H. }
  split.
  - intros H. apply H1. eapply sub_empty_elem, strip_elem, H.
  - intros H. apply strip_elem in H. revert H.
    apply (sub_empty_cuts SLASH [Re.Eos]); [reflexivity|exact H1].
Qed.

(** What [ai_rule] lets through. *)
Lemma ai_rule_shape (line cleaned : text) :
  (LF ∉ line) ->
  ai_rule U line = Some cleaned ->
  (5 < length cleaned)%nat /\ stripped U cleaned /\ (LF ∉ cleaned) /\ (BAR ∉ cleaned)
  /\ startswith (py "·") cleaned = false.
Proof.
  intros Hlf. unfold ai_rule. destruct (_ && _); [|discriminate].
  destruct (_ && _) eqn:H; [|discriminate]. intros [= <-].
  apply andb_prop in H as [H Hdot]. apply andb_prop in H as [Hlen _].
  apply Nat.ltb_lt in Hlen. apply negb_true_iff in Hdot.
  split; [exact Hlen|]. split; [apply strip_stripped|].
  assert (H3 : LF ∉ Re.sub_empty U Re.PLUS_NUMBER
                      (Re.sub_empty U Re.SLASH_PRICE
                         (Re.sub_empty U Re.PRICE (strip U line)))).
  { intros H. apply Hlf.
    eapply strip_elem, sub_empty_elem, sub_empty_elem, sub_empty_elem, H. }
  split; [|split; [|exact Hdot]].
  - intros H. apply H3. eapply sub_empty_elem, strip_elem, H.
  - intros H. apply strip_elem in H. revert H.
    apply (sub_empty_cuts BAR []); [reflexivity|exact H3].
Qed.

Lemma omap_Forall (f : text -> option text) (P Q : text -> Prop) (l : list text) :
  Forall P l -> (forall x y, P x -> f x = Some y -> Q y) -> Forall Q (omap f l).
Proof.
  intros Hl Hf. apply Forall_forall. intros y Hy.
  apply list_elem_of_omap in Hy as (x & Hx & Hfx).
  eapply Hf; [|exact Hfx]. eapply Forall_forall in Hl; eauto.
Qed.

Lemma take_fromkeys_Forall (P : text -> Prop) (n : nat) (l : list text) :
  Forall P l -> Forall P (take n (dict_fromkeys l)).
Proof.
  intros Hl. apply Forall_forall. intros x Hx.
  apply take_subset, dict_fromkeys_subset in Hx.
  eapply Forall_forall in Hl; eauto.
Qed.

(** Every item [parse_menu_items_simple] returns has more than three
    characters, no white space at either end, and holds neither a line
    feed nor a "/" (so that the heading "BURGERS/MAINS" cannot come out
    of it, with or without the test against the headings). *)
Theorem parse_menu_items_simple_items (content : text) :
  Forall (fun item => (3 < length item)%nat /\ stripped U item
                      /\ (LF ∉ item) /\ (SLASH ∉ item))
         (parse_menu_items_simple U content).
Proof.
  apply take_fromkeys_Forall.
  eapply omap_Forall; [apply (split_no_separator LF)|].
  intros line cleaned Hline Hrule. now apply simple_rule_shape in Hrule.
Qed.

(** Every item [extract_menu_items_from_content] returns for a string
    has more than three characters, no white space at either end and no
    line feed; when the AI-assisted call goes through, the items have
    more than five characters, hold no "|" and do not start with "·". *)
Theorem extract_menu_items_from_content_items (content : text) (w : world) :
  exists items w',
    extract_menu_items_from_content U (VStr content) w = (Ok items, w')
    /\ Forall (fun item => (3 < length item)%nat /\ stripped U item /\ (LF ∉ item)) items
    /\ (ai_call_fails (backend w (requests_issued w) (ai_request (session w) content))
        = false ->
        Forall (fun item => (5 < length item)%nat /\ (BAR ∉ item)
                            /\ startswith (py "·") item = false) items).
Proof.
  destruct (extract_menu_items_from_content_run U content w) as (evs & Hrun & _).
  eexists _, _. split; [exact Hrun|].
  destruct (ai_call_fails _).
  - split; [|discriminate].
    eapply Forall_impl; [apply parse_menu_items_simple_items|].
    cbn. intros item (H1 & H2 & H3 & _). auto.
  - assert (H : Forall (fun item => (5 < length item)%nat /\ stripped U item
                                    /\ (LF ∉ item) /\ (BAR ∉ item)
                                    /\ startswith (py "·") item = false)
                       (extract_items U content)).
    { apply take_fromkeys_Forall.
      eapply omap_Forall; [apply (split_no_separator LF)|].
      intros line cleaned Hline Hrule. now apply ai_rule_shape in Hrule. }
    split; [|intros _]; (eapply Forall_impl; [exact H|]); cbn;
      intros item (H1 & H2 & H3 & H4 & H5).
    + split; [lia|]. split; assumption.
    + split; [exact H1|]. split; assumption.
Qed.

End ItemShape.

(** ** The typed menu *)

Section TypedMenu.
Context (U : Unicode).

Lemma replace_elem (a b c : char) (s : text) :
  c ∈ replace a b s -> c = b \/ c ∈ s.
Proof.
  unfold replace. intros H. apply list_elem_of_fmap in H as (x & -> & Hx).
  destruct (x =? a); auto.
Qed.

Lemma replace_removes (a b : char) (s : text) : a <> b -> a ∉ replace a b s.
Proof.
  intros Hab H. unfold replace in H. apply list_elem_of_fmap in H as (x & Hx & _).
  destruct (x =? a) eqn:E; [congruence|]. subst. now rewrite N.eqb_refl in E.
Qed.

Lemma split_elem (sep c : char) (s piece : text) :
  piece ∈ split sep s -> c ∈ piece -> c ∈ s.
Proof.
  revert piece. induction s as [|a s IH]; intros piece Hpiece H; cbn [split] in Hpiece.
  - apply list_elem_of_singleton in Hpiece. subst. now apply elem_of_nil in H.
  - destruct (a =? sep).
    + apply elem_of_cons in Hpiece as [->|Hpiece];
        [now apply elem_of_nil in H|right; eapply IH; eauto].
    + destruct (split sep s) as [|w ws] eqn:E.
      * apply list_elem_of_singleton in Hpiece. subst.
        apply list_elem_of_singleton in H. subst. now left.
      * apply elem_of_cons in Hpiece as [->|Hpiece].
        -- apply elem_of_cons in H as [->|H]; [now left|].
           right. apply (IH w); [now left|exact H].
        -- right. apply (IH piece); [now right|exact H].
Qed.

(** Every item of the typed-menu parser is non-empty, has no white space
    at either end, and holds neither a comma nor a line feed. *)
Theorem parse_typed_menu_items (menu_items_input : text) :
  Forall (fun item => item <> [] /\ stripped U item /\ (COMMA ∉ item) /\ (LF ∉ item))
         (parse_typed_menu U menu_items_input).
Proof.
  unfold parse_typed_menu. apply Forall_forall. intros item Hitem.
  apply list_elem_of_filter in Hitem as [Hne Hitem].
  apply list_elem_of_fmap in Hitem as (piece & -> & Hpiece).
  split; [intros E; now rewrite E in Hne|]. split; [apply strip_stripped|].
  pose proof (split_no_separator COMMA (replace LF COMMA menu_items_input)) as Hsep.
  eapply Forall_forall in Hsep; [|exact Hpiece]. split.
  - intros H. apply Hsep. eapply strip_elem, H.
  - intros H. apply strip_elem in H.
    apply (replace_removes LF COMMA menu_items_input); [discriminate|].
    eapply split_elem; eauto.
Qed.

Lemma strip_fixed (s : text) : stripped U s -> strip U s = s.
Proof.
  intros [Hh Hl]. unfold strip, rstrip.
  assert (H1 : lstrip U s = s).
  { destruct s as [|c s]; [reflexivity|]. cbn [lstrip]. now rewrite (Hh c eq_refl). }
  rewrite H1.
  assert (H2 : lstrip U (rev s) = rev s).
  { pose proof (head_rev s) as Hr. destruct (rev s) as [|c r]; [reflexivity|].
    cbn [lstrip]. cbn [head] in Hr. now rewrite (Hl c (eq_sym Hr)). }
  rewrite H2. apply rev_involutive.
Qed.

Lemma split_piece (sep : char) (x rest : text) :
  sep ∉ x -> split sep (x ++ sep :: rest) = x :: split sep rest.
Proof.
  induction x as [|c x IH]; intros Hx; cbn [app split].
  - now rewrite N.eqb_refl.
  - assert (Hc : (c =? sep) = false)
      by (apply N.eqb_neq; intros ->; apply Hx; now left).
    rewrite Hc, IH; [reflexivity|]. intros H. apply Hx. now right.
Qed.

Lemma split_whole (sep : char) (x : text) : sep ∉ x -> split sep x = [x].
Proof.
  induction x as [|c x IH]; intros Hx; cbn [split]; [reflexivity|].
  assert (Hc : (c =? sep) = false)
    by (apply N.eqb_neq; intros ->; apply Hx; now left).
  rewrite Hc, IH; [reflexivity|]. intros H. apply Hx. now right.
Qed.

Lemma split_join (sep : char) (items : list text) :
  items <> [] -> Forall (fun item => sep ∉ item) items ->
  split sep (join [sep] items) = items.
Proof.
  induction items as [|x [|y rest] IH]; intros Hne Hall; [congruence| |].
  - cbn [join]. apply split_whole. now apply Forall_cons in Hall as [? _].
  - apply Forall_cons in Hall as [Hx Hrest].
    change (join [sep] (x :: y :: rest)) with (x ++ sep :: join [sep] (y :: rest)).
    rewrite (split_piece sep x _ Hx), IH; [reflexivity|discriminate|exact Hrest].
Qed.

Lemma replace_join (a b : char) (items : list text) :
  Forall (fun item => a ∉ item) items ->
  replace a b (join [a] items) = join [b] items.
Proof.
  assert (Hid : forall s : text, a ∉ s -> replace a b s = s).
  { intros s. induction s as [|c s IH]; intros Hs; [reflexivity|]. cbn.
    assert (Hc : (c =? a) = false)
      by (apply N.eqb_neq; intros ->; apply Hs; now left).
    rewrite Hc. f_equal. apply IH. intros H. apply Hs. now right. }
  induction items as [|x [|y rest] IH]; intros Hall; [reflexivity| |].
  - cbn [join]. apply Hid. now apply Forall_cons in Hall as [? _].
  - apply Forall_cons in Hall as [Hx Hrest].
    change (join [a] (x :: y :: rest)) with (x ++ a :: join [a] (y :: rest)).
    change (join [b] (x :: y :: rest)) with (x ++ b :: join [b] (y :: rest)).
    assert (Happ : forall x y : text,
               replace a b (x ++ a :: y) = replace a b x ++ b :: replace a b y).
    { intros x0 y0. unfold replace. rewrite map_app. cbn [map].
      now rewrite N.eqb_refl. }
    rewrite Happ, (Hid x Hx). f_equal. f_equal. now apply IH.
Qed.

(** The form joins the selected items with line feeds and the analysis
    splits the text again (lines 875 and 939-943).  The items come back
    as they were when each is non-empty, has no white space at either
    end, and holds neither a comma nor a line feed. *)
Theorem parse_typed_menu_join (items : list text) :
  Forall (fun item => item <> [] /\ stripped U item /\ (COMMA ∉ item) /\ (LF ∉ item))
         items ->
  parse_typed_menu U (join [LF] items) = items.
Proof.
  intros Hall. unfold parse_typed_menu.
  rewrite replace_join by (eapply Forall_impl; [exact Hall|]; cbn; tauto).
  destruct items as [|x rest]; [reflexivity|].
  rewrite split_join;
    [|discriminate|eapply Forall_impl; [exact Hall|]; cbn; tauto].
  generalize (x :: rest) Hall. clear. intros items.
  induction 1 as [|item items (Hne & Hs & _) _ IH]; [reflexivity|].
  cbn [map]. rewrite (strip_fixed item Hs), filter_cons.
  destruct item as [|c item]; [congruence|]. cbn [nonempty].
  rewrite decide_True by reflexivity. f_equal. exact IH.
Qed.

End TypedMenu.

Lemma parse_typed_menu_join_witness :
  parse_typed_menu ascii_tables (join [LF] [py "Chicken Rice"; py "Kaya Toast"])
  = [py "Chicken Rice"; py "Kaya Toast"].
Proof.
  apply (parse_typed_menu_join ascii_tables [py "Chicken Rice"; py "Kaya Toast"]).
  repeat constructor; try discriminate;
    try (intros c [= <-]; reflexivity);
    try (intros H; vm_compute in H;
         repeat (apply elem_of_cons in H as [H|H]; [discriminate H|]);
         now apply elem_of_nil in H).
Defined.

(** An item with a comma in it does not come back in one piece. *)
Example parse_typed_menu_splits_at_commas :
  parse_typed_menu ascii_tables (join [LF] [py "Fish, Chips"]) = [py "Fish"; py "Chips"].
Proof. vm_compute. reflexivity. Qed.

(** ** The flow of [main] *)

Section Flow.
Context (U : Unicode).

Lemma unique_options_from_cover (items seen : list text) :
  unique_options_from U seen items `sublist_of` items
  /\ forall x, x ∈ items ->
                lower U x ∈ seen
                \/ exists y, y ∈ unique_options_from U seen items /\ lower U y = lower U x.
Proof.
  revert seen. induction items as [|a rest IH]; intros seen; cbn [unique_options_from].
  - split; [constructor|]. intros x Hx. now apply elem_of_nil in Hx.
  - destruct (IH seen) as [Hsub Hcov]. destruct (IH (lower U a :: seen)) as [Hsub' Hcov'].
    case_bool_decide as Hseen.
    + split; [now apply sublist_cons|]. intros x Hx.
      apply elem_of_cons in Hx as [->|Hx]; [now left|now apply Hcov].
    + split; [now apply sublist_skip|]. intros x Hx.
      apply elem_of_cons in Hx as [->|Hx].
      * right. exists a. split; [now left|reflexivity].
      * destruct (Hcov' x Hx) as [Hin|(y & Hy & Heq)].
        -- apply elem_of_cons in Hin as [Heq|Hin]; [|now left].
           right. exists a. split; [now left|now symmetry].
        -- right. exists y. split; [now right|exact Heq].
Qed.

(** The pass of [main] over the extracted items (lines 693-698 and
    764-769) keeps a sub-list of them, in their order, in which no two
    items are equal up to letter case, and every item it drops is equal
    up to letter case to one it keeps. *)
Theorem unique_options_spec (items : list text) :
  unique_options U items `sublist_of` items
  /\ no_case_duplicates U (unique_options U items)
  /\ forall x, x ∈ items ->
                exists y, y ∈ unique_options U items /\ lower U y = lower U x.
Proof.
  destruct (unique_options_from_cover items []) as [Hsub Hcov].
  split; [exact Hsub|]. split; [apply unique_options_no_case_duplicates|].
  intros x Hx. destruct (Hcov x Hx) as [Hin|H]; [now apply elem_of_nil in Hin|exact H].
Qed.

(** The analysis step never asks the backend about an empty menu.  It
    sends no request at all, or the one POST to [/analyze-menu], and then
    the form was submitted and the menu sent is the non-empty list of
    items parsed from the text; without a submission nothing happens. *)
Theorem menu_analysis_requests (inp : inputs) (menu_items_input : text) (w : world) :
  exists r evs,
    menu_analysis U inp menu_items_input w = (r, extend w evs)
    /\ (requests_of evs = []
        \/ (submitted inp = true
            /\ parse_typed_menu U menu_items_input <> []
            /\ requests_of evs
               = [analyze_request (session w) (parse_typed_menu U menu_items_input)
                    (dietary_preferences inp) (health_conditions inp) (age_group inp)]))
    /\ (submitted inp = false -> evs = []).
Proof.
  unfold menu_analysis. destruct (submitted inp) eqn:Hsub; cbn [andb].
  - destruct (nonempty (strip U menu_items_input)).
    + destruct (parse_typed_menu U menu_items_input) as [|item items] eqn:Hparse.
      * call_run. eexists _, _. split; [reflexivity|]. split; [now left|discriminate].
      * destruct (analyze_menu_api_outcome (item :: items) (dietary_preferences inp)
                    (health_conditions inp) (age_group inp) w) as (evs0 & Hrun & Hev).
        cbv zeta in Hrun, Hev. unfold bind at 1. rewrite Hrun.
        assert (Hq : requests_of evs0 = []).
        { destruct (body_of _); [now subst|]. destruct Hev as (msg & ->). reflexivity. }
        clear Hev Hrun.
        generalize (default VNone (body_of (backend w (requests_issued w)
                      (analyze_request (session w) (item :: items)
                         (dietary_preferences inp) (health_conditions inp)
                         (age_group inp))))).
        intros results. destruct (truthy results).
        -- unfold display_results.
           destruct results as [|b|z|f|t|l|d];
             cbv beta iota zeta delta [bind ret lift get raise st emit];
             try destruct (truthy (default VNone
                                     (dict_lookup d (py "nutritional_analysis"))));
             try destruct (truthy (default VNone
                                     (dict_lookup d (py "singapore_guidelines_compliance"))));
             norm_world; (eexists _, _; split; [reflexivity|]);
             (split; [right; split; [reflexivity|]; split; [discriminate|]
                     |discriminate]);
             change (Http ?q :: evs0 ++ ?t) with ([Http q] ++ evs0 ++ t);
             rewrite !requests_of_app, Hq; reflexivity.
        -- cbv beta iota zeta delta [bind ret]. norm_world.
           eexists _, _. split; [reflexivity|].
           split; [right; split; [reflexivity|]; split; [discriminate|]|discriminate].
           change (Http ?q :: evs0) with ([Http q] ++ evs0).
           rewrite !requests_of_app, Hq. reflexivity.
    + call_run. eexists _, _. split; [reflexivity|]. split; [now left|discriminate].
  - exists (Ok true), []. rewrite extend_nil. repeat split. now left.
Qed.

(** The part of [main] behind the sidebar goes no further than its
    checks when the session holds no key, or a key that has not been
    validated: it stops the script, and the only requests it has issued
    are the probes of the health check. *)
Theorem main_content_requires_valid_key (fuel : nat) (inp : inputs) (w : world) :
  nonempty (api_key (session w)) = false \/ api_key_valid (session w) = false ->
  exists evs,
    main_content U fuel inp w = (Raise StopException, extend w evs)
    /\ Forall (fun q => q = HEALTH \/ q = ROOT) (requests_of evs).
Proof.
  intros Hkey.
  destruct (check_backend_health_verdict w) as (healthy & probes & Hrun & Hp & _).
  assert (Hprobes : Forall (fun q => q = HEALTH \/ q = ROOT) probes).
  { subst probes. destruct (answers_other _).
    - constructor; [now left|]. constructor; [now right|constructor].
    - constructor; [now left|constructor]. }
  assert (Hreq : forall t, requests_of t = [] ->
            Forall (fun q => q = HEALTH \/ q = ROOT) (requests_of ((Http <$> probes) ++ t))).
  { intros t Ht. rewrite requests_of_app, Ht, app_nil_r.
    clear -Hprobes. induction Hprobes; [constructor|]. cbn. now constructor. }
  unfold main_content, bind at 1. rewrite Hrun.
  destruct healthy; cbn [negb].
  - unfold bind at 1, get_session. cbn [extend session].
    destruct (nonempty (api_key (session w))) eqn:Hne; cbn [negb].
    + destruct Hkey as [Hkey|Hkey]; [discriminate|]. rewrite Hkey. cbn [negb].
      cbv beta iota zeta delta [bind st emit st_stop raise]. norm_world.
      eexists. split; [reflexivity|]. now apply Hreq.
    + cbv beta iota zeta delta [bind st emit st_stop raise]. norm_world.
      eexists. split; [reflexivity|]. now apply Hreq.
  - eexists. split; [reflexivity|]. rewrite <- (app_nil_r (Http <$> probes)).
    now apply Hreq.
Qed.

Lemma strip_nonempty (s : text) : nonempty (strip U s) = true -> nonempty s = true.
Proof. destruct s; [discriminate|reflexivity]. Qed.

(** The key section of the sidebar (lines 452-511) never raises.  After
    it the session holds the key that was typed.  The key counts as
    validated exactly when it was tested in this run and [/api-info]
    answered 200, or when it was not tested, is the key the session held
    before, and was validated then: a key that was edited and not tested
    is never valid.  The test is the only request sent. *)
Theorem sidebar_api_key_validity (inp : inputs) (w : world) :
  let tested := test_api_key_clicked inp && nonempty (strip U (api_key_input inp)) in
  exists w',
    sidebar_api_key U inp w = (Ok tt, w')
    /\ backend w' = backend w
    /\ requests_of (trace w')
       = requests_of (trace w)
         ++ (if tested then [api_info_request (api_key_input inp)] else [])
    /\ api_key (session w') = api_key_input inp
    /\ api_key_valid (session w')
       = (if tested
          then answers_200 (backend w (requests_issued w)
                              (api_info_request (api_key_input inp)))
          else bool_decide (api_key_input inp = api_key (session w))
               && api_key_valid (session w)).
Proof.
  intros tested. unfold sidebar_api_key. unfold bind at 1, get_session.
  assert (H1 : exists w1,
             (if bool_decide (api_key_input inp = api_key (session w)) then ret tt
              else update_session
                     (fun s => set_api_key_valid false (set_api_key (api_key_input inp) s))) w
             = (Ok tt, w1)
             /\ backend w1 = backend w /\ trace w1 = trace w
             /\ api_key (session w1) = api_key_input inp
             /\ api_key_valid (session w1)
                = bool_decide (api_key_input inp = api_key (session w))
                  && api_key_valid (session w)).
  { case_bool_decide as Heq.
    - exists w. rewrite Heq. repeat split; reflexivity.
    - eexists. split; [reflexivity|]. repeat split; reflexivity. }
  destruct H1 as (w1 & Hrun1 & Hb1 & Ht1 & Hk1 & Hv1).
  unfold bind at 1. rewrite Hrun1. clear Hrun1.
  assert (H2 : exists w2,
             (if tested
              then r <- test_api_key (Some (api_key_input inp)) ;;
                   if r.1
                   then update_session (set_api_key_valid true) ;;
                        st st_success [FLit (py "✅ API key is valid!")]
                   else update_session (set_api_key_valid false) ;;
                        st st_error [FLit (py "❌ Invalid API key")] ;;
                        st st_error (FLit (py "Error: ") ::
                                     match r.2 with
                                     | inr msg => msg
                                     | inl _ => [FLit (py "Authentication failed")]
                                     end)
              else ret tt) w1
             = (Ok tt, w2)
             /\ backend w2 = backend w
             /\ requests_of (trace w2)
                = requests_of (trace w)
                  ++ (if tested then [api_info_request (api_key_input inp)] else [])
             /\ api_key (session w2) = api_key_input inp
             /\ api_key_valid (session w2)
                = (if tested
                   then answers_200 (backend w (requests_issued w)
                                       (api_info_request (api_key_input inp)))
                   else bool_decide (api_key_input inp = api_key (session w))
                        && api_key_valid (session w))).
  { destruct tested eqn:Htested.
    - apply andb_prop in Htested as [_ Hne]. apply strip_nonempty in Hne.
      destruct (test_api_key_verdict (Some (api_key_input inp)) w1 (api_key_input inp))
        as (info & Hrun2).
      { cbn. now rewrite Hne. }
      { exact Hne. }
      unfold bind at 1. rewrite Hrun2. cbn [fst snd].
      replace (requests_issued w1) with (requests_issued w)
        by (unfold requests_issued; now rewrite Ht1).
      rewrite Hb1. clear Hrun2.
      destruct (answers_200 (backend w (requests_issued w)
                               (api_info_request (api_key_input inp))));
        cbv beta iota zeta delta [bind update_session st emit];
        (eexists; split; [reflexivity|]);
        cbn [with_session log extend backend session trace
             set_api_key_valid api_key api_key_valid];
        rewrite ?requests_of_app, Ht1;
        repeat split; try assumption; try reflexivity;
        cbn; now rewrite ?app_nil_r.
    - exists w1. split; [reflexivity|]. rewrite Ht1, app_nil_r. auto. }
  destruct H2 as (w2 & Hrun2 & Hb2 & Ht2 & Hk2 & Hv2).
  fold tested. unfold bind at 1. rewrite Hrun2. clear Hrun2.
  unfold bind at 1, get_session.
  destruct (nonempty (api_key (session w2)));
    [destruct (api_key_valid (session w2)) eqn:Ev|];
    (eexists; split; [reflexivity|]);
    cbn [log backend session trace]; rewrite requests_of_app, Ht2; cbn;
    rewrite app_nil_r; repeat split; try assumption; try reflexivity; congruence.
Qed.


(** A file that the session has marked as processed is not sent again:
    for it the upload step issues no request and writes no file.  It
    changes the session exactly when the button to reprocess is on the
    page and was pressed: then it takes the mark off the file, leaves
    the rest of the session, and restarts the script.  In every other
    case the session stays as it was and the script is not restarted. *)
Theorem menu_upload_skips_processed_file
    (fuel : nat) (inp : inputs) (w : world) (f : uploaded) :
  input_method inp = UploadDocument ->
  uploaded_file inp = Some f ->
  (file_name f, file_size f) ∈ processed_files (session w) ->
  exists r w' evs,
    menu_upload U fuel inp w = (r, w')
    /\ backend w' = backend w
    /\ trace w' = trace w ++ evs
    /\ requests_of evs = [] /\ file_events_of evs = []
    /\ (if reprocess_offered (session w) && reprocess_clicked inp
        then r = Raise RerunException
             /\ session w'
                = set_processed_files
                    (processed_files (session w) ∖ {[(file_name f, file_size f)]})
                    (session w)
        else r <> Raise RerunException /\ session w' = session w).
Proof.
  intros Hm Hf Hin. unfold menu_upload. rewrite Hm, Hf.
  unfold bind at 1, get_session. rewrite bool_decide_true by exact Hin.
  unfold bind at 1, st, emit. unfold reprocess_offered.
  destruct (truthy (extracted_items_persistent (session w))); cbn [andb].
  - destruct (len (extracted_items_persistent (session w))) as [e|n] eqn:Hlen.
    + cbv beta iota zeta delta [bind lift raise].
      eexists _, _, [_]. split; [reflexivity|]. repeat split.
      destruct (extracted_items_persistent (session w)); cbn in Hlen; congruence.
    + cbv beta iota zeta delta [bind lift ret st emit].
      destruct (reprocess_clicked inp).
      * cbv beta iota zeta delta [bind update_session st_rerun raise].
        eexists _, _, [_; _]. split; [reflexivity|].
        cbn [log with_session backend trace session].
        rewrite <- app_assoc. repeat split.
      * eexists _, _, [_; _]. split; [reflexivity|].
        cbn [log backend trace session]. rewrite <- app_assoc.
        repeat split. discriminate.
  - eexists _, _, [_]. split; [reflexivity|]. repeat split. discriminate.
Qed.


(** The guidelines lookup of the sidebar (lines 554-567) never raises: it
    sends nothing unless the button was pressed, and then the one GET
    for the chosen category, the only request of the script that is sent
    without a timeout. *)
Theorem sidebar_guidelines_outcome (inp : inputs) (w : world) :
  exists evs,
    sidebar_guidelines inp w = (Ok tt, extend w evs)
    /\ requests_of evs
       = (if view_guidelines_clicked inp
          then [guidelines_request (session w) (selected_category inp)]
          else [])
    /\ req_timeout (guidelines_request (session w) (selected_category inp)) = None.
Proof.
  unfold sidebar_guidelines. destruct (view_guidelines_clicked inp).
  - unfold try_except, bind at 1 2. rewrite get_headers_run.
    unfold http. fold (guidelines_request (session w) (selected_category inp)).
    destruct (backend w (requests_issued w) _) as [r|k].
    + call_run. destruct (status_code r =? 200)%Z.
      * destruct (resp_json r); call_run;
          (eexists; split; [reflexivity|split; reflexivity]).
      * call_run. eexists; split; [reflexivity|split; reflexivity].
    + destruct k; call_run; (eexists; split; [reflexivity|split; reflexivity]).
  - exists []. rewrite extend_nil. repeat split.
Qed.

(** A run of [main] in which no key is typed reaches no protected
    feature: it returns or stops the script, and every request it has
    issued is a health probe or the guidelines lookup, none with an
    [Authorization] header. *)
Theorem main_without_key (fuel : nat) (inp : inputs) (w : world) :
  api_key_input inp = [] ->
  exists r w' reqs,
    main U fuel inp w = (r, w')
    /\ (r = Ok tt \/ r = Raise StopException)
    /\ requests_of (trace w') = requests_of (trace w) ++ reqs
    /\ Forall (fun q => (q = HEALTH \/ q = ROOT
                         \/ req_path q = [FLit (py "/singapore-guidelines/");
                                           FText (selected_category inp)])
                        /\ (req_headers q = [] \/ req_headers q = [CONTENT_TYPE]))
              reqs.
Proof.
  intros Hkey.
  assert (Hprobe : forall q, q = HEALTH \/ q = ROOT ->
            (q = HEALTH \/ q = ROOT
             \/ req_path q = [FLit (py "/singapore-guidelines/");
                               FText (selected_category inp)])
            /\ (req_headers q = [] \/ req_headers q = [CONTENT_TYPE])).
  { intros q [->| ->]; (split; [tauto|now left]). }
  destruct (check_backend_health_verdict w) as (healthy & probes & Hrun & Hp & _).
  assert (Hprobes : Forall (fun q => q = HEALTH \/ q = ROOT) probes).
  { subst probes. destruct (answers_other _).
    - constructor; [now left|]. constructor; [now right|constructor].
    - constructor; [now left|constructor]. }
  assert (Hrp : requests_of (Http <$> probes) = probes).
  { clear. induction probes; [reflexivity|]. cbn. now f_equal. }
  unfold main, bind at 1. rewrite Hrun. clear Hrun Hp. destruct healthy.
  - unfold bind at 1, st, emit.
    set (wa := log _ (extend w (Http <$> probes))).
    destruct (sidebar_api_key_validity inp wa) as (wb & Hrunb & Hbb & Hreqb & Hkb & _).
    cbv zeta in Hreqb. rewrite Hkey in Hreqb, Hkb.
    replace (nonempty (strip U [])) with false in Hreqb by reflexivity.
    rewrite andb_false_r, app_nil_r in Hreqb.
    unfold bind at 1. rewrite Hrunb. clear Hrunb.
    destruct (sidebar_guidelines_outcome inp wb) as (evg & Hrung & Hreqg & _).
    unfold bind at 1. rewrite Hrung. clear Hrung.
    destruct (main_content_requires_valid_key fuel inp (extend wb evg))
      as (evc & Hrunc & Hreqc).
    { left. cbn [extend session]. now rewrite Hkb. }
    rewrite Hrunc. clear Hrunc.
    eexists _, _, (probes ++ requests_of evg ++ requests_of evc).
    split; [reflexivity|]. split; [now right|]. split.
    + cbn [extend trace]. rewrite !requests_of_app, Hreqb.
      subst wa. cbn [log extend trace]. rewrite !requests_of_app, Hrp.
      cbn. now rewrite app_nil_r, <- !app_assoc.
    + apply Forall_app. split; [eapply Forall_impl; [exact Hprobes|exact Hprobe]|].
      apply Forall_app. split; [|eapply Forall_impl; [exact Hreqc|exact Hprobe]].
      rewrite Hreqg. destruct (view_guidelines_clicked inp); [|constructor].
      constructor; [|constructor]. split; [right; right; reflexivity|].
      right. cbn [guidelines_request req_headers]. unfold headers_of. now rewrite Hkb.
  - cbv beta iota zeta delta [bind ret st emit].
    eexists _, _, probes. split; [reflexivity|]. split; [now left|]. split.
    + cbn [log extend trace]. rewrite !requests_of_app, Hrp. cbn.
      now rewrite !app_nil_r.
    + eapply Forall_impl; [exact Hprobes|exact Hprobe].
Qed.

Lemma strings_or_texts (e : exn) (items : list text) :
  strings_or e (VStr <$> items) = inr items.
Proof. induction items as [|x l IH]; cbn; [reflexivity|]. now rewrite IH. Qed.

(** The cached items of an answer that lists strings are those strings. *)
Lemma cached_items_of_texts (d : list (text * value)) (items : list text) :
  dict_lookup d (py "menu_items") = Some (texts items) ->
  cached_items (VDict d) = inr items.
Proof.
  intros H. unfold cached_items. rewrite H. cbn [default from_option id texts len iter].
  apply strings_or_texts.
Qed.

(** A cache hit (lines 756-778) sends no request.  When the cached
    items of the answer are strings, it ends normally: the options it
    stores are those items without the ones equal to an earlier item up
    to letter case, the same list goes to both copies in the session,
    both flags are set and the file is marked as processed, and nothing
    else in the session changes.  When the answer is no dictionary, or
    its ["menu_items"] has no length or holds an item that is no string,
    it raises that exception and leaves the session as it was. *)
Theorem process_cache_hit_outcome (result : value) (file_key : text * N) (w : world) :
  exists r w',
    process_cache_hit U result file_key w = (r, w')
    /\ requests_of (trace w') = requests_of (trace w)
    /\ match cached_items result with
       | inr items =>
           r = Ok tt
           /\ session w'
              = set_processed_files ({[file_key]} ∪ processed_files (session w))
                  (set_extracted_items_persistent (texts (unique_options U items))
                     (set_extracted_menu_options (unique_options U items) (session w)))
           /\ extracted_menu_options (session w') = unique_options U items
           /\ extracted_items_persistent (session w') = texts (unique_options U items)
           /\ no_case_duplicates U (extracted_menu_options (session w'))
           /\ document_processed (session w') = true
           /\ doc_processed_persistent (session w') = true
           /\ file_key ∈ processed_files (session w')
       | inl e => r = Raise e /\ session w' = session w
       end.
Proof.
  unfold process_cache_hit, cached_items.
  destruct result as [|b|z|f|t|l|d];
    try (cbv beta iota zeta delta [bind lift raise get];
         eexists _, _; split; [reflexivity|]; repeat split).
  cbv beta iota zeta delta [bind lift raise ret st emit get].
  generalize (default (VList []) (dict_lookup d (py "menu_items"))). intros items.
  destruct (len items) as [e|n] eqn:Hlen;
    [eexists _, _; split; [reflexivity|]; repeat split|].
  cbv beta iota zeta.
  assert (Hiter : exists all_options, iter items = inr all_options)
    by (destruct items; cbn in Hlen; try discriminate; cbn; eauto).
  destruct Hiter as (all_options & Hiter). rewrite Hiter. cbv beta iota zeta.
  destruct (strings_or AttributeError all_options) as [e|strs].
  - eexists _, _. split; [reflexivity|]. cbn [log trace session].
    rewrite requests_of_app. split; [cbn; now rewrite app_nil_r|]. split; reflexivity.
  - cbv beta iota zeta delta [store_options update_session bind ret].
    eexists _, _. split; [reflexivity|].
    cbn [log with_session trace session set_processed_files
         set_extracted_items_persistent set_extracted_menu_options
         extracted_menu_options extracted_items_persistent
         document_processed doc_processed_persistent processed_files].
    rewrite requests_of_app. split; [cbn; now rewrite app_nil_r|].
    split; [reflexivity|]. split; [reflexivity|]. split; [reflexivity|].
    split; [reflexivity|]. split; [apply unique_options_no_case_duplicates|].
    repeat split. apply elem_of_union_l, elem_of_singleton. reflexivity.
Qed.

(** The fallback answer of the backend (lines 726-754) is stored before
    it is measured.  Whatever is under ["menu_items"] (the hard-coded
    dishes when nothing is) goes to the session and the file is marked as
    processed; the step then raises exactly when that value has no
    length.  No request is sent. *)
Theorem process_fallback_success_outcome
    (d : list (text * value)) (file_key : text * N) (w : world) :
  let items := default (texts FALLBACK_ITEMS) (dict_lookup d (py "menu_items")) in
  exists r w',
    process_fallback_success (VDict d) file_key w = (r, w')
    /\ requests_of (trace w') = requests_of (trace w)
    /\ extracted_items_persistent (session w') = items
    /\ doc_processed_persistent (session w') = true
    /\ file_key ∈ processed_files (session w')
    /\ (r = Ok tt <-> exists n, len items = inr n)
    /\ (r <> Ok tt -> r = Raise TypeError).
Proof.
  intros items. unfold process_fallback_success.
  cbv beta iota zeta delta [bind lift get ret st emit update_session].
  fold items.
  set (w1 := log _ w).
  assert (Hw1 : requests_of (trace w1) = requests_of (trace w)
                /\ session w1 = session w).
  { subst w1. cbn [log trace session]. rewrite requests_of_app. cbn.
    now rewrite app_nil_r. }
  destruct Hw1 as [Hq1 Hs1].
  set (w2 := if truthy (default VNone (dict_lookup d (py "error")))
             then log (St st_error [FVal (default VNone (dict_lookup d (py "error")))]) w1
             else w1).
  assert (Hw2 : requests_of (trace w2) = requests_of (trace w)).
  { subst w2. destruct (truthy _); [|exact Hq1].
    cbn [log trace]. rewrite requests_of_app, Hq1. cbn. now rewrite app_nil_r. }
  assert (Hgoal : forall w2', requests_of (trace w2') = requests_of (trace w) ->
            exists r w',
              (let (r0, w') :=
                 match len items with
                 | inl e => fun w0 : world => (Raise e, w0)
                 | inr a => fun w0 : world => (Ok a, w0)
                 end
                   (with_session
                      (fun s => set_processed_files ({[file_key]} ∪ processed_files s)
                                  (set_extracted_items_persistent items s)) w2') in
               match r0 with
               | Ok a => (Ok tt, log (St st_info [FLit (py "Using "); FNat a;
                                                  FLit (py " common Singapore dishes.")]) w')
               | Raise e => (Raise e, w')
               | Running => (Running, w')
               end) = (r, w')
              /\ requests_of (trace w') = requests_of (trace w)
              /\ extracted_items_persistent (session w') = items
              /\ doc_processed_persistent (session w') = true
              /\ file_key ∈ processed_files (session w')
              /\ (r = Ok tt <-> exists n, len items = inr n)
              /\ (r <> Ok tt -> r = Raise TypeError)).
  { intros w2' Hq. destruct (len items) as [e|n] eqn:Hlen.
    - eexists _, _. split; [reflexivity|].
      cbn [with_session trace session set_processed_files
           set_extracted_items_persistent extracted_items_persistent
           doc_processed_persistent processed_files].
      split; [exact Hq|]. repeat split.
      + apply elem_of_union_l, elem_of_singleton. reflexivity.
      + discriminate.
      + intros (n & Hn). discriminate.
      + intros _. destruct items; cbn in Hlen; congruence.
    - eexists _, _. split; [reflexivity|].
      cbn [log with_session trace session set_processed_files
           set_extracted_items_persistent extracted_items_persistent
           doc_processed_persistent processed_files].
      rewrite requests_of_app, Hq. split; [cbn; now rewrite app_nil_r|].
      repeat split.
      + apply elem_of_union_l, elem_of_singleton. reflexivity.
      + eauto.
      + congruence. }
  destruct (truthy (default VNone (dict_lookup d (py "error")))).
  - apply Hgoal. subst w2. exact Hw2.
  - apply Hgoal. exact Hq1.
Qed.

End Flow.

Lemma main_content_requires_valid_key_witness :
  exists evs,
    main_content ascii_tables 100 Scenarios.analysis_request Scenarios.helpful
    = (Raise StopException, extend Scenarios.helpful evs)
    /\ Forall (fun q => q = HEALTH \/ q = ROOT) (requests_of evs).
Proof.
  apply (main_content_requires_valid_key ascii_tables 100 Scenarios.analysis_request
           Scenarios.helpful).
  left. reflexivity.
Defined.

Lemma menu_upload_skips_processed_file_witness :
  exists r w' evs,
    menu_upload ascii_tables 10 Scenarios.upload_again Scenarios.processed = (r, w')
    /\ backend w' = backend Scenarios.processed
    /\ trace w' = trace Scenarios.processed ++ evs
    /\ requests_of evs = [] /\ file_events_of evs = []
    /\ (if reprocess_offered (session Scenarios.processed)
           && reprocess_clicked Scenarios.upload_again
        then r = Raise RerunException
             /\ session w'
                = set_processed_files
                    (processed_files (session Scenarios.processed)
                     ∖ {[(file_name Scenarios.MENU_PDF, file_size Scenarios.MENU_PDF)]})
                    (session Scenarios.processed)
        else r <> Raise RerunException /\ session w' = session Scenarios.processed).
Proof.
  apply (menu_upload_skips_processed_file ascii_tables 10 Scenarios.upload_again
           Scenarios.processed Scenarios.MENU_PDF).
  - reflexivity.
  - reflexivity.
  - refine (bool_decide_unpack _ _). vm_compute. exact I.
Defined.


Lemma main_without_key_witness :
  exists r w' reqs,
    main ascii_tables 10 Scenarios.browsing Scenarios.helpful = (r, w')
    /\ (r = Ok tt \/ r = Raise StopException)
    /\ requests_of (trace w') = requests_of (trace Scenarios.helpful) ++ reqs
    /\ Forall (fun q => (q = HEALTH \/ q = ROOT
                         \/ req_path q = [FLit (py "/singapore-guidelines/");
                                           FText (selected_category Scenarios.browsing)])
                        /\ (req_headers q = [] \/ req_headers q = [CONTENT_TYPE]))
              reqs.
Proof.
  apply (main_without_key ascii_tables 10 Scenarios.browsing Scenarios.helpful).
  reflexivity.
Defined.
